(** * cv-cue-wrapper: a shallow embedding of the client, the filter model
      and the paginated device listing, with the properties of its
      specification.

    The Python sources embedded here are
      - [cv_cue_wrapper/resources/filters.py]          (Module [filters])
      - [cv_cue_wrapper/cv_cue_client.py]              (Module [cv_cue_client])
      - [cv_cue_wrapper/resources/base.py] and
        [cv_cue_wrapper/resources/managed_devices.py]  (Module [managed_devices])

    Python values are dynamically typed, so the embedding has one type
    [PyVal] of values; dictionaries that are only looked up ([params],
    [kwargs], the environment, the cookie jar, the file system) are finite
    maps, and a dictionary whose key order is observable (the one that
    [json.dumps] prints) is an association list.  Exceptions are values of
    [Exn]; a call either returns or raises ([result]).  Code that talks to
    the network or to the disk threads a [State]. *)

From stdpp Require Import gmap strings list pretty.
From Stdlib Require Import ZArith Ascii.

Set Warnings "-register-all".

Open Scope string_scope.
Open Scope list_scope.
Open Scope Z_scope.

(** ** Python values and exceptions *)

Module py.

Inductive PyVal : Type :=
| PNone
| PBool (b : bool)
| PInt (n : Z)
| PStr (s : string)
| PList (l : list PyVal)
| PTuple (items : list PyVal)
| PDict (d : list (string * PyVal)).

(** [isinstance(v, list)] *)
Definition isinstance_list (v : PyVal) : bool :=
  match v with PList _ => true | _ => false end.

(** Truth value of an object, as [if v:] and [not v] use it. *)
Definition truthy (v : PyVal) : bool :=
  match v with
  | PNone => false
  | PBool b => b
  | PInt n => negb (n =? 0)
  | PStr s => negb (String.length s =? 0)%nat
  | PList l => negb (length l =? 0)%nat
  | PTuple items => negb (length items =? 0)%nat
  | PDict d => negb (length d =? 0)%nat
  end.

(** The exceptions the embedded code raises or lets through.
    [HTTPError], [ConnectionError] and [JSONDecodeError] are the subclasses
    of [requests.exceptions.RequestException] that occur here. *)
Inductive Exn : Type :=
| ValueError (msg : string)
| AttributeError (msg : string)
| TypeError (msg : string)
| OSError (msg : string)
| UnpicklingError
| HTTPError (status : Z)
| ConnectionError
| JSONDecodeError.

(** [isinstance(e, requests.exceptions.RequestException)] *)
Definition is_RequestException (e : Exn) : bool :=
  match e with
  | HTTPError _ | ConnectionError | JSONDecodeError => true
  | _ => false
  end.

Inductive result (A : Type) : Type :=
| Ok (a : A)
| Raise (e : Exn).
Arguments Ok {A} a.
Arguments Raise {A} e.

(** [sep.join(l)] *)
Fixpoint join (sep : string) (l : list string) : string :=
  match l with
  | [] => ""
  | [s] => s
  | s :: rest => s +:+ sep +:+ join sep rest
  end.

(** Lookup in a dictionary kept as an association list: [d.get(k)]. *)
Fixpoint assoc_get {A : Type} (k : string) (d : list (string * A)) : option A :=
  match d with
  | [] => None
  | (k', a) :: rest => if String.eqb k k' then Some a else assoc_get k rest
  end.

End py.
Export py.

(** ** What [json.dumps] prints

    [json.dumps] is library code; the development is parametric in it.
    This is the text the library prints, with its default separators and
    [ensure_ascii], for the values of [PyVal], a character of a string
    being the code point of that number.  The examples run on it. *)

Module json.

Definition dquote : string := String (ascii_of_nat 34) EmptyString.

Definition hex_digit (n : nat) : ascii :=
  nth n (String.list_ascii_of_string "0123456789abcdef") "0"%char.

Definition escape_char (c : ascii) : string :=
  let n := nat_of_ascii c in
  if (n =? 34)%nat then "\" +:+ dquote
  else if (n =? 92)%nat then "\\"
  else if (n =? 10)%nat then "\n"
  else if (n =? 13)%nat then "\r"
  else if (n =? 9)%nat then "\t"
  else if (n =? 12)%nat then "\f"
  else if (n =? 8)%nat then "\b"
  else if (32 <=? n)%nat && (n <=? 126)%nat then String c EmptyString
  else "\u00" +:+ String (hex_digit (n / 16)) (String (hex_digit (n mod 16)) EmptyString).

Fixpoint escape (s : string) : string :=
  match s with
  | EmptyString => EmptyString
  | String c s' => escape_char c +:+ escape s'
  end.

Definition encode_str (s : string) : string := dquote +:+ escape s +:+ dquote.

Fixpoint dumps (v : PyVal) : string :=
  match v with
  | PNone => "null"
  | PBool true => "true"
  | PBool false => "false"
  | PInt n => pretty n
  | PStr s => encode_str s
  | PList l => "[" +:+ join ", " (map dumps l) +:+ "]"
  | PTuple items => "[" +:+ join ", " (map dumps items) +:+ "]"
  | PDict d =>
      "{" +:+ join ", " (map (fun kv => let '(k, x) := kv in
                                        encode_str k +:+ ": " +:+ dumps x) d) +:+ "}"
  end.

End json.

(** ** resources/filters.py *)

Module filters.

(** [Filter.OPERATOR_MAP]: friendly operator names and the API's tokens. *)
Definition OPERATOR_MAP : list (string * string) :=
  [ ("equals", "=");
    ("lessThan", "<");
    ("greaterThan", ">");
    ("lessThanOrEquals", "<=");
    ("greaterThanOrEquals", ">=");
    ("notEquals", "!=");
    ("contains", "contains");
    ("notContains", "notcontains") ].

(** [Filter.VALID_OPERATORS = list(OPERATOR_MAP.keys())] *)
Definition VALID_OPERATORS : list string := map fst OPERATOR_MAP.

(** [operator in self.VALID_OPERATORS] *)
Definition in_list (s : string) (l : list string) : bool :=
  existsb (String.eqb s) l.

(** The attributes of a [Filter] object.  [value] is a Python list. *)
Record Filter : Type := mkFilter {
  property : string;
  operator : string;
  value : list PyVal
}.

(** [Filter.__init__(self, property, operator, value)] *)
Definition Filter_init (property operator : string) (value : PyVal) : result Filter :=
  if negb (in_list operator VALID_OPERATORS) then
    Raise (ValueError ("Invalid operator '" +:+ operator +:+ "'. " +:+
                       "Must be one of: " +:+ join ", " VALID_OPERATORS))
  else
    Ok {| property := property;
          operator := operator;
          value := match value with PList l => l | _ => [value] end |}.

(** [Filter.to_dict]: the keys in the order the source writes them. *)
Definition to_dict (f : Filter) : list (string * PyVal) :=
  let api_operator := default (operator f) (assoc_get (operator f) OPERATOR_MAP) in
  [ ("property", PStr (property f));
    ("operator", PStr api_operator);
    ("value", PList (value f)) ].

(** The attributes of a [FilterBuilder] object. *)
Record FilterBuilder : Type := mkFilterBuilder {
  fb_filters : list Filter;
  fb_operator : string
}.

(** [FilterBuilder.__init__(self, operator="AND")] *)
Definition FilterBuilder_init (operator : string) : result FilterBuilder :=
  if negb (in_list operator ["AND"; "OR"]) then
    Raise (ValueError "Operator must be 'AND' or 'OR'")
  else
    Ok {| fb_filters := []; fb_operator := operator |}.

(** [FilterBuilder.add]: appends to [self.filters] and returns [self];
    the builder after the call is the result. *)
Definition add (self : FilterBuilder) (property operator : string) (value : PyVal)
  : result FilterBuilder :=
  match Filter_init property operator value with
  | Raise e => Raise e
  | Ok f => Ok {| fb_filters := fb_filters self ++ [f];
                  fb_operator := fb_operator self |}
  end.

Definition contains self property value := add self property "contains" value.
Definition equals self property value := add self property "equals" value.
Definition not_contains self property value := add self property "notContains" value.
Definition not_equals self property value := add self property "notEquals" value.
Definition greater_than self property value := add self property "greaterThan" value.
Definition less_than self property value := add self property "lessThan" value.
Definition greater_than_or_equals self property value :=
  add self property "greaterThanOrEquals" value.
Definition less_than_or_equals self property value :=
  add self property "lessThanOrEquals" value.

(** [FilterBuilder.__len__] *)
Definition FilterBuilder_len (self : FilterBuilder) : nat := length (fb_filters self).

(** A chain of calls [self.add(p1, op1, v1).add(p2, op2, v2)...], each on
    the builder the one before returned; the first raise ends the chain. *)
Fixpoint add_all (self : FilterBuilder) (calls : list (string * string * PyVal))
  : result FilterBuilder :=
  match calls with
  | [] => Ok self
  | (property, operator, value) :: rest =>
      match add self property operator value with
      | Ok self' => add_all self' rest
      | Raise e => Raise e
      end
  end.

Section Serialisation.

(** [json.dumps] belongs to the Python library, not to this repository:
    the text it prints is a parameter of the development. *)
Variable json_dumps : PyVal -> string.

(** [Filter.__str__] *)
Definition Filter_str (f : Filter) : string := json_dumps (PDict (to_dict f)).

(** [FilterBuilder.to_params] *)
Definition to_params (self : FilterBuilder) : gmap string PyVal :=
  if (length (fb_filters self) =? 0)%nat then ∅
  else
    <["filter" := PList (map (fun f => PStr (Filter_str f)) (fb_filters self))]>
      (<["operator" := PStr (fb_operator self)]> ∅).

End Serialisation.

End filters.

(** ** The state the client runs in *)

Module world.

(** The keyword arguments [CVCueClient.request] receives and passes on to
    [requests.Session.request]. *)
Record ReqKwargs : Type := mkReqKwargs {
  kw_params : option (gmap string PyVal);
  kw_json : option PyVal;
  kw_headers : option (gmap string string)
}.

(** One call of [requests.Session.request(method, url, **kwargs)]. *)
Record Request : Type := mkRequest {
  rq_method : string;
  rq_url : string;
  rq_kwargs : ReqKwargs
}.

(** The query parameter [key] of a request, and its header [key]. *)
Definition param_of (key : string) (rq : Request) : option PyVal :=
  match kw_params (rq_kwargs rq) with
  | Some params => params !! key
  | None => None
  end.

Definition header_of (key : string) (rq : Request) : option string :=
  match kw_headers (rq_kwargs rq) with
  | Some headers => headers !! key
  | None => None
  end.

(** What the code reads of a [requests.Response]: the status, the body as
    [response.json()] parses it ([None] when the body is not JSON, as it
    is for an answer without body), and what its [Set-Cookie] headers say
    of each cookie they name: [Some v] sets it to [v], [None] is a cookie
    that comes already expired. *)
Record Response : Type := mkResponse {
  status_code : Z;
  body_json : option PyVal;
  resp_cookies : gmap string (option string)
}.

Inductive Outcome : Type :=
| Answer (r : Response)
| Unreachable.

(** What a file holds, as far as [pickle] can tell: the pickle of a cookie
    jar, which [pickle.load] reads back, or bytes whose loading raises. *)
Inductive FileData : Type :=
| Pickled (jar : gmap string string)
| Garbage (bytes : string).

(** The mutable state: the process environment, the files (a path in
    [fs_frozen] can neither be written nor removed; of these paths, the
    ones in [fs_denied] lie in a directory that cannot be searched, so
    that nothing at all can be done with them), the cookie jar of the
    client's [requests.Session], and the network: the server's answer to
    the n-th request issued, and the requests issued so far. *)
Record State : Type := mkState {
  environ : gmap string string;
  fs_files : gmap string FileData;
  fs_frozen : gset string;
  fs_denied : gset string;
  cookies : gmap string string;
  server : nat -> Outcome;
  sent : list Request
}.

Definition M (A : Type) : Type := State -> result A * State.

Definition ret {A : Type} (a : A) : M A := fun st => (Ok a, st).

Definition raise {A : Type} (e : Exn) : M A := fun st => (Raise e, st).

Definition bind {A B : Type} (m : M A) (k : A -> M B) : M B :=
  fun st =>
    match m st with
    | (Ok a, st') => k a st'
    | (Raise e, st') => (Raise e, st')
    end.

(** [try: m  except <class>: h]; [handles] decides the [except] clause. *)
Definition try_except {A : Type} (m : M A) (handles : Exn -> bool) (h : Exn -> M A) : M A :=
  fun st =>
    match m st with
    | (Ok a, st') => (Ok a, st')
    | (Raise e, st') => if handles e then h e st' else (Raise e, st')
    end.

(** [except Exception] *)
Definition any_Exception (e : Exn) : bool := true.

Declare Scope py_scope.
Delimit Scope py_scope with py.
Notation "x <- m ;; k" := (bind m (fun x => k))
  (at level 100, m at next level, right associativity) : py_scope.
Notation "m ;;; k" := (bind m (fun _ => k))
  (at level 100, right associativity) : py_scope.
Open Scope py_scope.

(** [os.getenv(name)] *)
Definition getenv (name : string) : M (option string) :=
  fun st => (Ok (environ st !! name), st).

(** Whether [os.stat(path)] and every other access to [path] fails with
    [PermissionError], an [OSError]: [path] is one of the frozen paths
    that are in a directory without search permission. *)
Definition denied (st : State) (path : string) : bool :=
  bool_decide (path ∈ fs_frozen st) && bool_decide (path ∈ fs_denied st).

(** [path.exists()]: [False] for a path that is not there; the
    [PermissionError] of [os.stat] is not caught by [Path.exists]. *)
Definition path_exists (path : string) : M bool :=
  fun st =>
    if denied st path then (Raise (OSError "Permission denied"), st)
    else (Ok (bool_decide (is_Some (fs_files st !! path))), st).

(** [open(path, 'rb')] *)
Definition open_rb (path : string) : M FileData :=
  fun st =>
    if denied st path then (Raise (OSError "Permission denied"), st)
    else
      match fs_files st !! path with
      | Some data => (Ok data, st)
      | None => (Raise (OSError "No such file or directory"), st)
      end.

(** [pickle.load(f)] *)
Definition pickle_load (f : FileData) : M (gmap string string) :=
  match f with
  | Pickled jar => ret jar
  | Garbage _ => raise UnpicklingError
  end.

(** [with open(path, 'wb') as f: pickle.dump(jar, f)] *)
Definition pickle_dump_to (path : string) (jar : gmap string string) : M unit :=
  fun st =>
    if bool_decide (path ∈ fs_frozen st) then
      (Raise (OSError "Permission denied"), st)
    else
      (Ok tt, mkState (environ st) (<[path := Pickled jar]> (fs_files st)) (fs_frozen st) (fs_denied st)
                      (cookies st) (server st) (sent st)).

(** [path.unlink()] *)
Definition unlink (path : string) : M unit :=
  fun st =>
    if denied st path then (Raise (OSError "Permission denied"), st)
    else
      match fs_files st !! path with
      | None => (Raise (OSError "No such file or directory"), st)
      | Some _ =>
          if bool_decide (path ∈ fs_frozen st) then
            (Raise (OSError "Permission denied"), st)
          else
            (Ok tt, mkState (environ st) (delete path (fs_files st)) (fs_frozen st) (fs_denied st)
                            (cookies st) (server st) (sent st))
      end.

(** Reading [self.session.cookies]. *)
Definition get_cookies : M (gmap string string) :=
  fun st => (Ok (cookies st), st).

(** [self.session = requests.Session()]: a session with no cookie. *)
Definition new_session : M unit :=
  fun st => (Ok tt, mkState (environ st) (fs_files st) (fs_frozen st) (fs_denied st)
                            ∅ (server st) (sent st)).

(** [self.session.cookies.update(c)] *)
Definition cookies_update (c : gmap string string) : M unit :=
  fun st => (Ok tt, mkState (environ st) (fs_files st) (fs_frozen st) (fs_denied st)
                            (c ∪ cookies st) (server st) (sent st)).

(** What the session does with the cookies of an answer: a cookie that
    is set enters the jar, over the one of that name, and a cookie that
    comes already expired is removed from it. *)
Definition set_cookies (answer : gmap string (option string))
    (jar : gmap string string) : gmap string string :=
  merge (fun new old =>
           match new with
           | Some (Some v) => Some v
           | Some None => None
           | None => old
           end) answer jar.

(** The state once [rq] has gone out: it is in the log, and the jar has
    taken the cookies of the server's answer to it, when there is one. *)
Definition after_send (st : State) (rq : Request) : State :=
  mkState (environ st) (fs_files st) (fs_frozen st) (fs_denied st)
          (match server st (length (sent st)) with
           | Answer r => set_cookies (resp_cookies r) (cookies st)
           | Unreachable => cookies st
           end)
          (server st) (sent st ++ [rq]).

(** [self.session.request(method, url, **kwargs)]: the request goes out and
    the server's next answer comes back; a server that cannot be reached
    makes [requests] raise [ConnectionError]. *)
Definition session_request (method url : string) (kwargs : ReqKwargs) : M Response :=
  fun st =>
    (match server st (length (sent st)) with
     | Answer r => Ok r
     | Unreachable => Raise ConnectionError
     end,
     after_send st (mkRequest method url kwargs)).

(** [self.session.get(url)] *)
Definition session_get (url : string) : M Response :=
  session_request "GET" url (mkReqKwargs None None None).

(** [response.raise_for_status()] of the [requests] library: [HTTPError] for
    a status from 400 to 599, nothing otherwise. *)
Definition raise_for_status (r : Response) : M unit :=
  if (400 <=? status_code r) && (status_code r <? 600)
  then raise (HTTPError (status_code r))
  else ret tt.

(** [response.json()] *)
Definition response_json (r : Response) : M PyVal :=
  match body_json r with
  | Some v => ret v
  | None => raise JSONDecodeError
  end.

(** What [request] makes of an answer: the error it raises, or the body
    it returns. *)
Definition request_error_of (o : Outcome) : Exn + PyVal :=
  match o with
  | Unreachable => inl ConnectionError
  | Answer r =>
      if (400 <=? status_code r) && (status_code r <? 600)
      then inl (HTTPError (status_code r))
      else match body_json r with
           | Some v => inr v
           | None => inl JSONDecodeError
           end
  end.

End world.
Export world.

(** ** cv_cue_client.py *)

Module cv_cue_client.

(** The attributes of a constructed client.  The [requests.Session] it
    owns lives in the [State] (its cookie jar is [cookies]). *)
Record CVCueClient : Type := mkClient {
  key_id : string;
  key_value : string;
  client_id : string;
  base_url : string;
  session_file : string
}.

(** [CVCueClient.SESSION_FILE = Path(".session")] *)
Definition SESSION_FILE : string := ".session".

(** [a or b] on [Optional[str]]: [None] and the empty string are false. *)
Definition py_or (a b : option string) : option string :=
  match a with
  | Some s => if String.eqb s "" then b else a
  | None => b
  end.

(** [not a] on [Optional[str]] *)
Definition py_not (a : option string) : bool :=
  match a with
  | Some s => String.eqb s ""
  | None => true
  end.

(** [s.rstrip(c)] for a single character [c] *)
Fixpoint rstrip (c : Ascii.ascii) (s : string) : string :=
  match s with
  | EmptyString => EmptyString
  | String a s' =>
      match rstrip c s' with
      | EmptyString => if Ascii.eqb a c then EmptyString else String a EmptyString
      | r => String a r
      end
  end.

(** [s.lstrip(c)] for a single character [c] *)
Fixpoint lstrip (c : Ascii.ascii) (s : string) : string :=
  match s with
  | EmptyString => EmptyString
  | String a s' => if Ascii.eqb a c then lstrip c s' else s
  end.

(** An optional string that counts as not given: [None] or empty. *)
Definition unset (a : option string) : Prop := a = None \/ a = Some "".

(** How [__init__] resolves a field: the argument when it is given, the
    environment variable when it is not. *)
Definition resolved (arg env : option string) (field : string) : Prop :=
  (forall s, arg = Some s -> s <> "" -> field = s) /\
  (unset arg -> env = Some field).

(** The string is made of the character [c] only. *)
Definition all_chars (c : ascii) (s : string) : Prop :=
  Forall (fun a => a = c) (String.list_ascii_of_string s).

(** [CVCueClient._load_session]; the logger calls have no effect on the
    state modelled here. *)
Definition _load_session (self : CVCueClient) : M unit :=
  present <- path_exists (session_file self) ;;
  if present : bool then
    try_except
      (f <- open_rb (session_file self) ;;
       jar <- pickle_load f ;;
       cookies_update jar)
      any_Exception
      (fun _ =>
         (* Remove corrupted session file *)
         try_except (unlink (session_file self)) any_Exception (fun _ => ret tt))
  else ret tt.

(** [CVCueClient._save_session] *)
Definition _save_session (self : CVCueClient) : M unit :=
  try_except
    (jar <- get_cookies ;;
     pickle_dump_to (session_file self) jar)
    any_Exception
    (fun _ => ret tt).

(** [CVCueClient.clear_session] *)
Definition clear_session (self : CVCueClient) : M unit :=
  present <- path_exists (session_file self) ;;
  if present : bool then
    try_except (unlink (session_file self)) any_Exception (fun _ => ret tt)
  else ret tt.

(** [CVCueClient.__init__]: the result is the constructed object; a raise
    leaves no object. *)
Definition CVCueClient_init
    (key_id key_value client_id base_url session_file : option string)
  : M CVCueClient :=
  env_key_id <- getenv "CV_CUE_KEY_ID" ;;
  let key_id := py_or key_id env_key_id in
  env_key_value <- getenv "CV_CUE_KEY_VALUE" ;;
  let key_value := py_or key_value env_key_value in
  env_client_id <- getenv "CV_CUE_CLIENT_ID" ;;
  let client_id := py_or client_id env_client_id in
  env_base_url <- getenv "CV_CUE_BASE_URL" ;;
  let base_url := py_or base_url env_base_url in
  (* a [Path] is always true: [session_file or self.SESSION_FILE] *)
  let session_file := default SESSION_FILE session_file in
  if py_not key_id then
    raise (ValueError "CV-CUE API key ID must be provided or set in CV_CUE_KEY_ID environment variable")
  else if py_not key_value then
    raise (ValueError "CV-CUE API key value must be provided or set in CV_CUE_KEY_VALUE environment variable")
  else if py_not client_id then
    raise (ValueError "CV-CUE client ID must be provided or set in CV_CUE_CLIENT_ID environment variable")
  else
    match base_url with
    | None => raise (AttributeError "'NoneType' object has no attribute 'rstrip'")
    | Some url =>
        let self := mkClient (default "" key_id) (default "" key_value)
                             (default "" client_id) (rstrip "/"%char url)
                             session_file in
        new_session ;;;
        _load_session self ;;;
        ret self
    end.

(** [CVCueClient.is_session_active] *)
Definition is_session_active (self : CVCueClient) : M bool :=
  jar <- get_cookies ;;
  if negb (bool_decide (is_Some (jar !! "JSESSIONID"))) then
    ret false
  else
    try_except
      (let url := base_url self +:+ "/session" in
       response <- session_get url ;;
       if status_code response =? 200 then ret true else ret false)
      is_RequestException
      (fun _ => ret false).

(** The keyword arguments [request] passes on:
    [if 'headers' not in kwargs and not kwargs.get('json'):
         kwargs['headers'] = {"Content-Type": "application/json"}] *)
Definition request_kwargs (kwargs : ReqKwargs) : ReqKwargs :=
  (* CV-CUE API requires Content-Type header even for requests without body *)
  if negb (bool_decide (is_Some (kw_headers kwargs)))
     && negb (truthy (default PNone (kw_json kwargs)))
  then mkReqKwargs (kw_params kwargs) (kw_json kwargs)
                   (Some {[ "Content-Type" := "application/json" ]})
  else kwargs.

(** [CVCueClient.request(method, path, **kwargs)] *)
Definition request (self : CVCueClient) (method path : string) (kwargs : ReqKwargs)
  : M PyVal :=
  let url := base_url self +:+ path in
  let kwargs := request_kwargs kwargs in
  response <- session_request method url kwargs ;;
  raise_for_status response ;;;
  response_json response.

(** [CVCueClient._make_request]: both [except] clauses log and re-raise. *)
Definition _make_request (self : CVCueClient) (method endpoint : string)
    (data : option PyVal) (params : option (gmap string PyVal)) : M PyVal :=
  let path := "/" +:+ lstrip "/"%char endpoint in
  let kwargs := mkReqKwargs params data None in
  try_except (request self method path kwargs)
    is_RequestException
    (fun e => raise e).

(** [CVCueClient.login] *)
Definition login (self : CVCueClient) : M PyVal :=
  let data := PDict [ ("type", PStr "apiKeyCredentials");
                      ("keyId", PStr (key_id self));
                      ("keyValue", PStr (key_value self));
                      ("clientIdentifier", PStr (client_id self));
                      ("timeout", PInt 300) ] in
  let endpoint := "session" in
  response <- _make_request self "POST" endpoint (Some data) None ;;
  (* Save session cookies after successful login *)
  _save_session self ;;;
  ret response.

Definition get (self : CVCueClient) (endpoint : string)
    (params : option (gmap string PyVal)) : M PyVal :=
  _make_request self "GET" endpoint None params.

Definition post (self : CVCueClient) (endpoint : string) (data : option PyVal) : M PyVal :=
  _make_request self "POST" endpoint data None.

Definition put (self : CVCueClient) (endpoint : string) (data : option PyVal) : M PyVal :=
  _make_request self "PUT" endpoint data None.

Definition delete (self : CVCueClient) (endpoint : string) : M PyVal :=
  _make_request self "DELETE" endpoint None None.

End cv_cue_client.

(** ** resources/base.py and resources/managed_devices.py *)

Module managed_devices.
Import filters cv_cue_client.

(** A resource object holds a reference to the client that owns it. *)
Record ManagedDevicesResource : Type := mkResource {
  client : CVCueClient
}.

(** [BaseResource._request] *)
Definition _request (self : ManagedDevicesResource) (method path : string)
    (kwargs : ReqKwargs) : M PyVal :=
  request (client self) method path kwargs.

(** [Union[FilterBuilder, List[Filter]]] *)
Inductive FiltersArg : Type :=
| FromBuilder (fb : FilterBuilder)
| FromList (l : list Filter).

(** The parameters of [list_aps] after Python has bound a call: the named
    parameters and what is left in [**kwargs], which never holds the name
    of a named parameter. *)
Record ListApsArgs : Type := mkListApsArgs {
  startindex : PyVal;
  pagesize : PyVal;
  totalcountrequired : PyVal;
  locationid : PyVal;
  sortby : PyVal;
  ascending : PyVal;
  fetchradios : PyVal;
  populatemeshinfo : PyVal;
  populatewiredinterfaces : PyVal;
  filters : option FiltersArg;
  filter_operator : string;
  kwargs : gmap string PyVal
}.

(** The defaults of the signature of [list_aps]. *)
Definition list_aps_defaults : ListApsArgs :=
  {| startindex := PInt 0;
     pagesize := PInt 10;
     totalcountrequired := PBool false;
     locationid := PNone;
     sortby := PStr "boxid";
     ascending := PBool true;
     fetchradios := PBool true;
     populatemeshinfo := PBool false;
     populatewiredinterfaces := PBool false;
     filters := None;
     filter_operator := "AND";
     kwargs := ∅ |}.

(** The names of the named parameters of [list_aps]. *)
Definition list_aps_names : list string :=
  [ "startindex"; "pagesize"; "totalcountrequired"; "locationid"; "sortby";
    "ascending"; "fetchradios"; "populatemeshinfo"; "populatewiredinterfaces";
    "filters"; "filter_operator" ].

(** [v is not None] *)
Definition is_not_None (v : PyVal) : bool :=
  match v with PNone => false | _ => true end.

(** [response.get(key, dflt)]: only a dictionary has [get]. *)
Definition py_get (v : PyVal) (key : string) (dflt : PyVal) : M PyVal :=
  match v with
  | PDict d => ret (default dflt (assoc_get key d))
  | _ => raise (AttributeError "object has no attribute 'get'")
  end.

(** The items [list.extend(v)] appends: the elements of a list or a
    tuple, the characters of a string, the keys of a dictionary. *)
Definition py_iter (v : PyVal) : M (list PyVal) :=
  match v with
  | PList l => ret l
  | PTuple items => ret items
  | PStr s => ret (map (fun c => PStr (String c EmptyString)) (String.list_ascii_of_string s))
  | PDict d => ret (map (fun kv => PStr (fst kv)) d)
  | _ => raise (TypeError "object is not iterable")
  end.

(** [len(v)] *)
Definition py_len (v : PyVal) : M Z :=
  match v with
  | PList l => ret (Z.of_nat (length l))
  | PTuple items => ret (Z.of_nat (length items))
  | PStr s => ret (Z.of_nat (String.length s))
  | PDict d => ret (Z.of_nat (length d))
  | _ => raise (TypeError "object has no len()")
  end.

(** The same call of [list_aps] with another [filter_operator]. *)
Definition with_filter_operator (op : string) (a : ListApsArgs) : ListApsArgs :=
  mkListApsArgs (startindex a) (pagesize a) (totalcountrequired a) (locationid a)
    (sortby a) (ascending a) (fetchradios a) (populatemeshinfo a)
    (populatewiredinterfaces a) (filters a) op (kwargs a).

(** The same call of [list_aps] with another [filters]. *)
Definition with_filters (f : option FiltersArg) (a : ListApsArgs) : ListApsArgs :=
  mkListApsArgs (startindex a) (pagesize a) (totalcountrequired a) (locationid a)
    (sortby a) (ascending a) (fetchradios a) (populatemeshinfo a)
    (populatewiredinterfaces a) f (filter_operator a) (kwargs a).

(** The error [request] raises on an answer, if it raises one. *)
Definition request_error (o : Outcome) : option Exn :=
  match o with
  | Unreachable => Some ConnectionError
  | Answer r =>
      if (400 <=? status_code r) && (status_code r <? 600)
      then Some (HTTPError (status_code r))
      else match body_json r with
           | Some _ => None
           | None => Some JSONDecodeError
           end
  end.

(** The device items of a page: what is under [managedDevices] (nothing
    when the key is not there) in an answer that [request] returns, when
    that is a list. *)
Definition page_items (o : Outcome) : option (list PyVal) :=
  match o with
  | Answer r =>
      if (400 <=? status_code r) && (status_code r <? 600) then None
      else
        match body_json r with
        | Some (PDict d) =>
            match default (PList []) (assoc_get "managedDevices" d) with
            | PList items => Some items
            | _ => None
            end
        | _ => None
        end
  | Unreachable => None
  end.

(** How one pass through the body of [while True] ends. *)
Inductive LoopStep : Type :=
| Break (all_devices : list PyVal)
| Next (all_devices : list PyVal).

Section Resource.

Variable json_dumps : PyVal -> string.

(** The query parameters [list_aps] builds. *)
Definition list_aps_params (a : ListApsArgs) : gmap string PyVal :=
  (* Build query parameters *)
  let params : gmap string PyVal :=
    <["populatewiredinterfaces" := populatewiredinterfaces a]>
    (<["populatemeshinfo" := populatemeshinfo a]>
    (<["fetchradios" := fetchradios a]>
    (<["ascending" := ascending a]>
    (<["sortby" := sortby a]>
    (<["totalcountrequired" := totalcountrequired a]>
    (<["pagesize" := pagesize a]>
    (<["startindex" := startindex a]> ∅))))))) in
  (* Add optional locationid if provided *)
  let params :=
    if is_not_None (locationid a) then <["locationid" := locationid a]> params
    else params in
  (* Handle Filter objects if provided *)
  let params :=
    match filters a with
    | None => params
    | Some (FromBuilder fb) =>
        (* params.update(filters.to_params()) *)
        to_params json_dumps fb ∪ params
    | Some (FromList l) =>
        <["operator" := PStr (filter_operator a)]>
        (<["filter" := PList (map (fun f => PStr (Filter_str json_dumps f)) l)]> params)
    end in
  (* Add any additional query parameters: params.update(kwargs) *)
  kwargs a ∪ params.

(** [ManagedDevicesResource.list_aps] *)
Definition list_aps (self : ManagedDevicesResource) (a : ListApsArgs) : M PyVal :=
  let params := list_aps_params a in
  (* Required API version header *)
  let headers : gmap string string := {[ "Version" := "19" ]} in
  _request self "GET" "/manageddevices/aps"
    (mkReqKwargs (Some params) None (Some headers)).

(** The request [list_aps] hands to [request]. *)
Definition list_aps_request (self : ManagedDevicesResource) (a : ListApsArgs) : Request :=
  mkRequest "GET" (base_url (client self) +:+ "/manageddevices/aps")
    (mkReqKwargs (Some (list_aps_params a)) None (Some {[ "Version" := "19" ]})).

(** The names [get_all_aps] passes to [list_aps] itself; a second value
    for one of them in [**kwargs] makes the call a [TypeError]. *)
Definition passed_names : list string :=
  [ "startindex"; "pagesize"; "totalcountrequired"; "filters"; "filter_operator" ].

(** The call
    [self.list_aps(startindex=startindex, pagesize=pagesize,
                   totalcountrequired=False, filters=filters,
                   filter_operator=filter_operator, **kwargs)]
    inside [get_all_aps]: the keywords of [kwargs] that name a parameter of
    [list_aps] are bound to it, the others stay in its [**kwargs]. *)
Definition bound_args (startindex pagesize : Z)
    (filters : option FiltersArg) (filter_operator : string)
    (kwargs : gmap string PyVal) : ListApsArgs :=
  let d := list_aps_defaults in
  mkListApsArgs
    (PInt startindex)
    (PInt pagesize)
    (PBool false)
    (default (locationid d) (kwargs !! "locationid"))
    (default (sortby d) (kwargs !! "sortby"))
    (default (ascending d) (kwargs !! "ascending"))
    (default (fetchradios d) (kwargs !! "fetchradios"))
    (default (populatemeshinfo d) (kwargs !! "populatemeshinfo"))
    (default (populatewiredinterfaces d) (kwargs !! "populatewiredinterfaces"))
    filters
    filter_operator
    (foldr base.delete kwargs list_aps_names).

Definition call_list_aps (self : ManagedDevicesResource) (startindex pagesize : Z)
    (filters : option FiltersArg) (filter_operator : string)
    (kwargs : gmap string PyVal) : M PyVal :=
  match List.find (fun k => bool_decide (is_Some (kwargs !! k))) passed_names with
  | Some k =>
      raise (TypeError ("list_aps() got multiple values for keyword argument '"
                        +:+ k +:+ "'"))
  | None =>
      list_aps self (bound_args startindex pagesize filters filter_operator kwargs)
  end.

(** The request of [get_all_aps] for the page that starts at [startindex]. *)
Definition page_request (self : ManagedDevicesResource) (pagesize : Z)
    (filters : option FiltersArg) (filter_operator : string)
    (kwargs : gmap string PyVal) (startindex : Z) : Request :=
  list_aps_request self (bound_args startindex pagesize filters filter_operator kwargs).

(** One pass through the body of the loop of [get_all_aps]. *)
Definition get_all_aps_body (self : ManagedDevicesResource) (pagesize : Z)
    (filters : option FiltersArg) (filter_operator : string)
    (kwargs : gmap string PyVal)
    (all_devices : list PyVal) (startindex : Z) : M LoopStep :=
  response <- call_list_aps self startindex pagesize filters filter_operator kwargs ;;
  devices <- py_get response "managedDevices" (PList []) ;;
  if negb (truthy devices) then
    ret (Break all_devices)
  else
    items <- py_iter devices ;;
    let all_devices := all_devices ++ items in
    (* Check if there are more pages *)
    n <- py_len devices ;;
    if n <? pagesize then ret (Break all_devices)
    else ret (Next all_devices).

(** The loop [while True] of [get_all_aps], run for at most [fuel] passes:
    [None] when the loop has not ended by then. *)
Fixpoint get_all_aps_loop (fuel : nat) (self : ManagedDevicesResource) (pagesize : Z)
    (filters : option FiltersArg) (filter_operator : string)
    (kwargs : gmap string PyVal)
    (all_devices : list PyVal) (startindex : Z) (st : State)
  : option (result (list PyVal) * State) :=
  match fuel with
  | O => None
  | S fuel' =>
      match get_all_aps_body self pagesize filters filter_operator kwargs
              all_devices startindex st with
      | (Raise e, st') => Some (Raise e, st')
      | (Ok (Break all_devices'), st') => Some (Ok all_devices', st')
      | (Ok (Next all_devices'), st') =>
          get_all_aps_loop fuel' self pagesize filters filter_operator kwargs
            all_devices' (startindex + pagesize) st'
      end
  end.

(** [ManagedDevicesResource.get_all_aps] *)
Definition get_all_aps (fuel : nat) (self : ManagedDevicesResource) (pagesize : Z)
    (filters : option FiltersArg) (filter_operator : string)
    (kwargs : gmap string PyVal) (st : State)
  : option (result (list PyVal) * State) :=
  get_all_aps_loop fuel self pagesize filters filter_operator kwargs [] 0 st.

End Resource.

End managed_devices.

(** ** cv_cue_client.py: the resource registry *)

Module registry.
Import cv_cue_client.

(** [d[key] = value] on a dictionary, which keeps its keys in the order
    they were first set. *)
Fixpoint dict_set {A : Type} (key : string) (v : A) (d : list (string * A))
  : list (string * A) :=
  match d with
  | [] => [(key, v)]
  | (k, x) :: rest =>
      if String.eqb key k then (k, v) :: rest else (k, x) :: dict_set key v rest
  end.

(** A resource object: the class it was made from (by name), the client
    [BaseResource.__init__] stored in it, and which object it is. *)
Record Resource : Type := mkInstance {
  resource_class : string;
  resource_client : CVCueClient;
  resource_id : nat
}.

(** The registry of the class [CVCueClient], the cache of one client, and
    the number of resource objects made so far. *)
Record Objects : Type := mkObjects {
  _resource_registry : list (string * string);
  _resource_cache : list (string * Resource);
  allocated : nat
}.

(** [CVCueClient.register_resource(name, resource_class)] *)
Definition register_resource (name resource_class : string) (o : Objects) : Objects :=
  mkObjects (dict_set name resource_class (_resource_registry o))
            (_resource_cache o) (allocated o).

(** [CVCueClient.__getattr__(self, name)] *)
Definition getattr (self : CVCueClient) (name : string) (o : Objects)
  : result Resource * Objects :=
  (* Check cache first *)
  match assoc_get name (_resource_cache o) with
  | Some resource_instance => (Ok resource_instance, o)
  | None =>
      (* Check if resource is registered *)
      match assoc_get name (_resource_registry o) with
      | Some resource_class =>
          let resource_instance := mkInstance resource_class self (allocated o) in
          (Ok resource_instance,
           mkObjects (_resource_registry o)
                     (dict_set name resource_instance (_resource_cache o))
                     (S (allocated o)))
      | None =>
          (Raise (AttributeError
                    ("CVCueClient has no resource '" +:+ name +:+ "'. " +:+
                     "Available resources: " +:+
                     join ", " (map fst (_resource_registry o)))),
           o)
      end
  end.

End registry.

(** ** main.py: the session commands *)

Module main.
Import cv_cue_client.

(** One [click.echo]: the text, the colour [click.style] gave it, and
    whether it goes to the error stream. *)
Record Echo : Type := mkEcho {
  echo_text : string;
  echo_fg : option string;
  echo_err : bool
}.

(** How a command ends: it returns, or [sys.exit(code)]. *)
Inductive Exit : Type :=
| Returns
| SysExit (code : Z).

(** A command: what it prints, how it ends, the state it leaves. *)
Definition Cli : Type := State -> list Echo * Exit * State.

(** [with CVCueClient() as client]: every field comes from the
    environment.  Leaving the block closes the HTTP session, which
    changes nothing of the state modelled here. *)
Definition new_client : M CVCueClient :=
  CVCueClient_init None None None None None.

Section Commands.

(** [str(e)] and [json.dumps(response, indent=2)] are library text. *)
Variable str_exn : Exn -> string.
Variable json_dumps_indent : PyVal -> string.

(** [session login] *)
Definition login (verbose : bool) : Cli :=
  fun st =>
    match new_client st with
    | (Raise e, st1) =>
        ([mkEcho ("✗ Login failed: " +:+ str_exn e) (Some "red") true], SysExit 1, st1)
    | (Ok client, st1) =>
        let attempting :=
          if verbose then [mkEcho "Attempting to login..." None false] else [] in
        match cv_cue_client.login client st1 with
        | (Raise e, st2) =>
            (attempting ++
             [mkEcho ("✗ Login failed: " +:+ str_exn e) (Some "red") true],
             SysExit 1, st2)
        | (Ok response, st2) =>
            (attempting ++
             [mkEcho "✓ Login successful" (Some "green") false] ++
             (if verbose then [mkEcho (json_dumps_indent response) None false] else []),
             Returns, st2)
        end
    end.

(** [session status] *)
Definition status : Cli :=
  fun st =>
    match new_client st with
    | (Raise e, st1) =>
        ([mkEcho ("✗ Error checking session: " +:+ str_exn e) (Some "red") true],
         SysExit 1, st1)
    | (Ok client, st1) =>
        match is_session_active client st1 with
        | (Raise e, st2) =>
            ([mkEcho ("✗ Error checking session: " +:+ str_exn e) (Some "red") true],
             SysExit 1, st2)
        | (Ok true, st2) =>
            ([mkEcho "✓ Session is active" (Some "green") false], Returns, st2)
        | (Ok false, st2) =>
            ([mkEcho "✗ Session is not active" (Some "yellow") false;
              mkEcho "Run 'cv-cue-wrapper session login' to create a new session"
                     None false],
             Returns, st2)
        end
    end.

(** [session clear] *)
Definition clear : Cli :=
  fun st =>
    match new_client st with
    | (Raise e, st1) =>
        ([mkEcho ("✗ Error clearing session: " +:+ str_exn e) (Some "red") true],
         SysExit 1, st1)
    | (Ok client, st1) =>
        match clear_session client st1 with
        | (Raise e, st2) =>
            ([mkEcho ("✗ Error clearing session: " +:+ str_exn e) (Some "red") true],
             SysExit 1, st2)
        | (Ok _, st2) =>
            ([mkEcho "✓ Session cache cleared" (Some "green") false], Returns, st2)
        end
    end.

End Commands.

(** *** [managed-devices list-aps] *)

(** [s.split(sep, maxsplit)] for a one-character separator. *)
Fixpoint split (sep : ascii) (s : string) (maxsplit : nat) {struct s} : list string :=
  match s with
  | EmptyString => [EmptyString]
  | String c s' =>
      match maxsplit with
      | O => [s]
      | S n =>
          if Ascii.eqb c sep then EmptyString :: split sep s' n
          else match split sep s' maxsplit with
               | [] => [String c EmptyString]
               | w :: ws => String c w :: ws
               end
      end
  end.

(** How often the character [c] occurs in [s]. *)
Fixpoint occurrences (c : ascii) (s : string) : nat :=
  match s with
  | EmptyString => O
  | String a s' => if Ascii.eqb a c then S (occurrences c s') else occurrences c s'
  end.

(** How the body of the [try] block goes on: with a value, with an
    exception, or with [sys.exit]. *)
Inductive Flow (A : Type) : Type :=
| Value (a : A)
| Raised (e : Exn)
| Exited (code : Z).
Arguments Value {A} a.
Arguments Raised {A} e.
Arguments Exited {A} code.

Definition Body (A : Type) : Type := State -> list Echo * Flow A * State.

Definition value {A : Type} (a : A) : Body A := fun st => ([], Value a, st).

Definition echo (text : string) (fg : option string) (err : bool) : Body unit :=
  fun st => ([mkEcho text fg err], Value tt, st).

Definition sys_exit {A : Type} (code : Z) : Body A := fun st => ([], Exited code, st).

Definition and_then {A B : Type} (m : Body A) (k : A -> Body B) : Body B :=
  fun st =>
    match m st with
    | (out, Value a, st') =>
        match k a st' with
        | (out', flow, st'') => (out ++ out', flow, st'')
        end
    | (out, Raised e, st') => (out, Raised e, st')
    | (out, Exited code, st') => (out, Exited code, st')
    end.

(** A method of the client run inside the block. *)
Definition call {A : Type} (m : M A) : Body A :=
  fun st =>
    match m st with
    | (Ok a, st') => ([], Value a, st')
    | (Raise e, st') => ([], Raised e, st')
    end.

Section DeviceCommands.

Variable str_exn : Exn -> string.
Variable json_dumps : PyVal -> string.

(** Printing the response (the [json], [table] and [compact] formats,
    built with [json.dumps(..., indent=2)] and Python's string
    formatting) is a parameter: what it echoes, given [output],
    [total_count] and the response, and the exception it may end with.
    So is the text [traceback.print_exc()] writes. *)
Variable render : string -> bool -> PyVal -> list Echo * option Exn.
Variable traceback_text : Exn -> string.

(** The loop over [filters]:
    [property_name, operator, value = filter_str.split(':', 2)] and
    [fb.add(property_name, operator, value)] under [except ValueError]. *)
Fixpoint add_filters (fb : filters.FilterBuilder) (filter_strs : list string)
  : Body filters.FilterBuilder :=
  match filter_strs with
  | [] => value fb
  | filter_str :: rest =>
      match
        match split ":"%char filter_str 2 with
        | [property_name; operator; v] =>
            filters.add fb property_name operator (PStr v)
        | _ => Raise (ValueError "not enough values to unpack")
        end
      with
      | Ok fb' => add_filters fb' rest
      | Raise (ValueError _) =>
          and_then (echo ("Invalid filter format: " +:+ filter_str) None true) (fun _ =>
          and_then (echo "Expected format: property:operator:value" None true) (fun _ =>
          sys_exit 1))
      | Raise e => fun st => ([], Raised e, st)
      end
  end.

(** [kwargs] of the call: [active], [model] and [name] when given. *)
Definition simple_filters (active : option bool) (model name : list string)
  : gmap string PyVal :=
  let kwargs : gmap string PyVal := ∅ in
  let kwargs := match active with
                | Some b => <["active" := PBool b]> kwargs
                | None => kwargs
                end in
  let kwargs := if (length model =? 0)%nat then kwargs
                else <["model" := PList (map PStr model)]> kwargs in
  let kwargs := if (length name =? 0)%nat then kwargs
                else <["name" := PList (map PStr name)]> kwargs in
  kwargs.

(** [if not client.is_session_active(): ... client.login()] *)
Definition ensure_session (verbose : bool) (client : CVCueClient) : Body unit :=
  and_then (call (is_session_active client)) (fun is_active =>
  if negb is_active then
    and_then (if verbose
              then echo "Session not active, logging in..." None false
              else value tt) (fun _ =>
    and_then (call (cv_cue_client.login client)) (fun _ => value tt))
  else value tt).

(** [fb = None] and, when [filters] is not empty, the builder for
    [filter_operator] with the filters of the loop. *)
Definition build_filters (filter_operator : string) (filter_strs : list string)
  : Body (option filters.FilterBuilder) :=
  if (length filter_strs =? 0)%nat then value None
  else
    and_then (call (fun st => (filters.FilterBuilder_init filter_operator, st)))
      (fun fb =>
    and_then (add_filters fb filter_strs) (fun fb => value (Some fb))).

(** The body of [with CVCueClient() as client:] in [list_aps];
    [client.managed_devices] is the resource registered under that name
    when the package is imported. *)
Definition list_aps_body (verbose : bool) (pagesize startindex : Z) (total_count : bool)
    (sortby : string) (ascending : bool) (active : option bool)
    (model name filter_strs : list string) (filter_operator output : string)
    (client : CVCueClient) : Body unit :=
  (* Ensure session is active *)
  and_then (ensure_session verbose client) (fun _ =>
  (* Build advanced filters if provided *)
  and_then (build_filters filter_operator filter_strs) (fun fb =>
  (* Build kwargs for simple filters *)
  let kwargs := simple_filters active model name in
  (* Make API call *)
  and_then (call (managed_devices.list_aps json_dumps
                    (managed_devices.mkResource client)
                    (managed_devices.mkListApsArgs
                       (PInt startindex) (PInt pagesize) (PBool total_count)
                       (managed_devices.locationid managed_devices.list_aps_defaults)
                       (PStr sortby) (PBool ascending)
                       (managed_devices.fetchradios managed_devices.list_aps_defaults)
                       (managed_devices.populatemeshinfo managed_devices.list_aps_defaults)
                       (managed_devices.populatewiredinterfaces
                          managed_devices.list_aps_defaults)
                       (option_map managed_devices.FromBuilder fb)
                       (managed_devices.filter_operator managed_devices.list_aps_defaults)
                       kwargs)))
    (fun response =>
  (* Output results *)
  fun st =>
    match render output total_count response with
    | (out, None) => (out, Value tt, st)
    | (out, Some e) => (out, Raised e, st)
    end))).

(** [managed-devices list-aps] *)
Definition list_aps (verbose : bool) (pagesize startindex : Z) (total_count : bool)
    (sortby : string) (ascending : bool) (active : option bool)
    (model name filter_strs : list string) (filter_operator output : string) : Cli :=
  fun st =>
    let failed (e : Exn) : list Echo :=
      mkEcho ("✗ Error: " +:+ str_exn e) (Some "red") true ::
      (if verbose then [mkEcho (traceback_text e) None true] else []) in
    match new_client st with
    | (Raise e, st1) => (failed e, SysExit 1, st1)
    | (Ok client, st1) =>
        match list_aps_body verbose pagesize startindex total_count sortby ascending
                active model name filter_strs filter_operator output client st1 with
        | (out, Value _, st2) => (out, Returns, st2)
        | (out, Raised e, st2) => (out ++ failed e, SysExit 1, st2)
        | (out, Exited code, st2) => (out, SysExit code, st2)
        end
    end.

End DeviceCommands.

End main.

(** ** States and calls for the examples *)

Module samples.
Import filters cv_cue_client managed_devices.

(** A state with nothing in it and a server that cannot be reached. *)
Definition st_empty : State :=
  mkState ∅ ∅ ∅ ∅ ∅ (fun _ => Unreachable) [].

(** A client as [__init__] leaves it. *)
Definition a_client : CVCueClient :=
  mkClient "id" "value" "client" "https://test.api.com/api" ".session".

(** A session file that cannot be loaded. *)
Definition st_corrupt : State :=
  mkState ∅ {[ ".session" := Garbage "not a pickle" ]} ∅ ∅ ∅ (fun _ => Unreachable) [].

(** The same file where it cannot be removed. *)
Definition st_corrupt_frozen : State :=
  mkState ∅ {[ ".session" := Garbage "not a pickle" ]} {[ ".session" ]} ∅ ∅
          (fun _ => Unreachable) [].

(** A state with the session cookie and a server that answers every
    request with [status] and an empty JSON object. *)
Definition st_answering (status : Z) : State :=
  mkState ∅ ∅ ∅ ∅ {[ "JSESSIONID" := "0123" ]}
          (fun _ => Answer (mkResponse status (Some (PDict [])) ∅)) [].

(** The server of a login that answers 300 with a JSON body and a cookie. *)
Definition st_login_300 : State :=
  mkState ∅ ∅ ∅ ∅ ∅
          (fun _ => Answer (mkResponse 300 (Some (PDict [("status", PStr "choices")]))
                                       {[ "JSESSIONID" := Some "0123" ]})) [].

(** The server of a login that answers 200 with a JSON body and a cookie. *)
Definition st_login_200 : State :=
  mkState ∅ ∅ ∅ ∅ ∅
          (fun _ => Answer (mkResponse 200 (Some (PDict [("status", PStr "success")]))
                                       {[ "JSESSIONID" := Some "0123" ]})) [].

(** The four fields in the environment and a session file in a directory
    that cannot be searched. *)
Definition st_denied : State :=
  mkState {[ "CV_CUE_KEY_ID" := "id"; "CV_CUE_KEY_VALUE" := "value";
             "CV_CUE_CLIENT_ID" := "client";
             "CV_CUE_BASE_URL" := "https://test.api.com/api/" ]}
          ∅ {[ ".session" ]} {[ ".session" ]} ∅ (fun _ => Unreachable) [].

(** A state with the session cookie and a server that answers 401 and
    sends the session cookie already expired. *)
Definition st_expiring : State :=
  mkState ∅ ∅ ∅ ∅ {[ "JSESSIONID" := "0123" ]}
          (fun _ => Answer (mkResponse 401 (Some (PDict []))
                                       {[ "JSESSIONID" := None ]})) [].

(** [Filter("model", "contains", ("AP-555", "AP-635"))]: the value is a
    tuple. *)
Definition a_tuple : PyVal := PTuple [PStr "AP-555"; PStr "AP-635"].

(** [FilterBuilder("AND").contains("name", "Arista")] *)
Definition fb_and : FilterBuilder :=
  mkFilterBuilder [mkFilter "name" "contains" [PStr "Arista"]] "AND".

(** [list_aps(filters=fb_and, operator="OR")]: the builder says AND, an
    extra keyword argument named [operator] says OR. *)
Definition args_operator_kwarg : ListApsArgs :=
  mkListApsArgs (PInt 0) (PInt 10) (PBool false) PNone (PStr "boxid") (PBool true)
    (PBool true) (PBool false) (PBool false)
    (Some (FromBuilder fb_and)) "AND" {[ "operator" := PStr "OR" ]}.

(** [list_aps(filters=fb_and, filter_operator="OR")] *)
Definition args_builder : ListApsArgs :=
  mkListApsArgs (PInt 0) (PInt 10) (PBool false) PNone (PStr "boxid") (PBool true)
    (PBool true) (PBool false) (PBool false)
    (Some (FromBuilder fb_and)) "OR" ∅.

(** [list_aps(filters=[Filter("name", "contains", "Arista")],
              filter_operator="OR")] *)
Definition args_filter_list : ListApsArgs :=
  mkListApsArgs (PInt 0) (PInt 10) (PBool false) PNone (PStr "boxid") (PBool true)
    (PBool true) (PBool false) (PBool false)
    (Some (FromList [mkFilter "name" "contains" [PStr "Arista"]])) "OR" ∅.

(** The devices [{"boxid": i}] for [i] from [first], [count] of them. *)
Definition devices (first count : nat) : list PyVal :=
  map (fun i => PDict [("boxid", PInt (Z.of_nat i))]) (seq first count).

(** A page as the server sends it. *)
Definition page (items : list PyVal) : Outcome :=
  Answer (mkResponse 200 (Some (PDict [("managedDevices", PList items);
                                       ("totalCount", PInt 250)])) ∅).

(** A server with 250 devices, asked for pages of 100. *)
Definition st_250 : State :=
  mkState ∅ ∅ ∅ ∅ ∅
          (fun n => match n with
                    | 0%nat => page (devices 0 100)
                    | 1%nat => page (devices 100 100)
                    | 2%nat => page (devices 200 50)
                    | _ => Unreachable
                    end) [].

(** A server that answers every request with the same [items]. *)
Definition st_always (items : list PyVal) : State :=
  mkState ∅ ∅ ∅ ∅ ∅ (fun _ => page items) [].

(** The four fields in the environment, as the [.env] file gives them. *)
Definition st_env : State :=
  mkState {[ "CV_CUE_KEY_ID" := "id"; "CV_CUE_KEY_VALUE" := "value";
             "CV_CUE_CLIENT_ID" := "client";
             "CV_CUE_BASE_URL" := "https://test.api.com/api/" ]}
          ∅ ∅ ∅ ∅ (fun _ => Unreachable) [].

(** [list_aps(startindex=20, pagesize=50, totalcountrequired=True,
              locationid=0, sortby="name", ascending=False,
              fetchradios=False)] *)
Definition args_custom : ListApsArgs :=
  mkListApsArgs (PInt 20) (PInt 50) (PBool true) (PInt 0) (PStr "name") (PBool false)
    (PBool false) (PBool false) (PBool false) None "AND" ∅.

(** [list_aps(active=True, model=["AP-555"],
              macaddress=["AA:BB:CC:DD:EE:FF"])] *)
Definition args_kwargs : ListApsArgs :=
  mkListApsArgs (PInt 0) (PInt 10) (PBool false) PNone (PStr "boxid") (PBool true)
    (PBool true) (PBool false) (PBool false) None "AND"
    {[ "active" := PBool true;
       "model" := PList [PStr "AP-555"];
       "macaddress" := PList [PStr "AA:BB:CC:DD:EE:FF"] ]}.

(** A server that sends one page of two devices and answers the second
    request with status 500. *)
Definition st_fails_second : State :=
  mkState ∅ ∅ ∅ ∅ ∅
          (fun n => match n with
                    | 0%nat => page (devices 0 2)
                    | _ => Answer (mkResponse 500 None ∅)
                    end) [].

(** The registry once the package is imported, and a client that has
    not used a resource yet. *)
Definition objects_imported : registry.Objects :=
  registry.mkObjects [("managed_devices", "ManagedDevicesResource")] [] 0.

End samples.

(** * Properties *)

(** ** Filters *)

Section FilterProperties.
Import filters.

Lemma in_list_In (s : string) (l : list string) : in_list s l = true <-> In s l.
Proof.
  unfold in_list. rewrite existsb_exists. split.
  - intros (x & Hx & Heq). apply String.eqb_eq in Heq. by subst.
  - intros H. exists s. split; [done | apply String.eqb_refl].
Qed.

Lemma Filter_init_valid (p op : string) (v : PyVal) :
  In op VALID_OPERATORS ->
  Filter_init p op v =
    Ok (mkFilter p op (match v with PList l => l | _ => [v] end)).
Proof.
  intros H. apply in_list_In in H. unfold Filter_init. by rewrite H.
Qed.

Lemma Filter_init_invalid (p op : string) (v : PyVal) :
  ~ In op VALID_OPERATORS ->
  exists msg, Filter_init p op v = Raise (ValueError msg).
Proof.
  intros H. unfold Filter_init.
  destruct (in_list op VALID_OPERATORS) eqn:E.
  - apply in_list_In in E. contradiction.
  - simpl. eauto.
Qed.

(** C5: an operator name that is one of the eight friendly names makes
    [Filter(property, name, value)] succeed, and the [operator] entry of
    the serialized filter is the API token of the table; through
    [FilterBuilder.add] the same filter is appended.  Any other name makes
    the construction, directly and through [add], raise the invalid
    operator error ([ValueError]). *)
Theorem Filter_operator_token (p op : string) (v : PyVal) :
  (forall tok,
      In (op, tok) [ ("equals", "="); ("lessThan", "<"); ("greaterThan", ">");
                     ("lessThanOrEquals", "<="); ("greaterThanOrEquals", ">=");
                     ("notEquals", "!="); ("contains", "contains");
                     ("notContains", "notcontains") ] ->
      exists f,
        Filter_init p op v = Ok f /\
        assoc_get "operator" (to_dict f) = Some (PStr tok) /\
        forall fb, add fb p op v = Ok (mkFilterBuilder (fb_filters fb ++ [f]) (fb_operator fb)))
  /\
  (~ In op [ "equals"; "lessThan"; "greaterThan"; "lessThanOrEquals";
             "greaterThanOrEquals"; "notEquals"; "contains"; "notContains" ] ->
      exists msg,
        Filter_init p op v = Raise (ValueError msg) /\
        forall fb, add fb p op v = Raise (ValueError msg)).
Proof.
  split.
  - intros tok Hin.
    assert (Hop : In op VALID_OPERATORS).
    { change VALID_OPERATORS with (map fst OPERATOR_MAP).
      apply in_map_iff. exists (op, tok). split; [done | exact Hin]. }
    exists (mkFilter p op (match v with PList l => l | _ => [v] end)).
    split; [by apply Filter_init_valid |]. split.
    + simpl in Hin.
      repeat (destruct Hin as [Heq | Hin];
              [injection Heq as <- <-; reflexivity |]).
      contradiction.
    + intros fb. unfold add. by rewrite Filter_init_valid.
  - intros Hnot.
    destruct (Filter_init_invalid p op v Hnot) as [msg Hmsg].
    exists msg. split; [done |].
    intros fb. unfold add. by rewrite Hmsg.
Qed.

(** C7, as amended: with a valid operator, a value that is not a list,
    be it a scalar or another sequence such as a tuple, becomes the
    one-element list of that value, and a list stays as it is. *)
Theorem Filter_value_normalised (p op : string) (v : PyVal) :
  In op VALID_OPERATORS ->
  (isinstance_list v = false ->
     exists f, Filter_init p op v = Ok f /\ value f = [v]) /\
  (forall s, v = PList s ->
     exists f, Filter_init p op v = Ok f /\ value f = s).
Proof.
  intros Hop. split.
  - intros Hscalar. eexists. split; [by apply Filter_init_valid |].
    simpl. by destruct v.
  - intros s ->. eexists. split; [by apply Filter_init_valid | done].
Qed.

Lemma add_all_appends (calls : list (string * string * PyVal)) :
  forall fb fb',
    add_all fb calls = Ok fb' ->
    exists fs,
      Forall2 (fun c f => Filter_init c.1.1 c.1.2 c.2 = Ok f) calls fs /\
      fb_filters fb' = fb_filters fb ++ fs /\
      fb_operator fb' = fb_operator fb.
Proof.
  induction calls as [| [[p op] v] calls IH]; intros fb fb' H; simpl in H.
  - injection H as <-. exists []. by rewrite app_nil_r.
  - unfold add in H. destruct (Filter_init p op v) as [f |] eqn:Hf; [| done].
    apply IH in H as (fs & Hfs & Hfilters & Hop). simpl in *.
    exists (f :: fs). split; [by constructor |].
    by rewrite Hfilters, <- app_assoc.
Qed.

Variable json_dumps : PyVal -> string.


End FilterProperties.

(** ** The client *)

Section ClientProperties.
Import cv_cue_client.

(** Unfolds the monad of [State] in a goal about a run. *)
Ltac run :=
  unfold bind, try_except, ret, raise, getenv, path_exists, open_rb,
    pickle_load, pickle_dump_to, unlink, get_cookies, new_session,
    cookies_update, session_get, session_request, raise_for_status,
    response_json, any_Exception; simpl.



(** A path that is refused is frozen. *)
Lemma not_frozen_not_denied (st : State) (path : string) :
  path ∉ fs_frozen st -> denied st path = false.
Proof. intros H. unfold denied. by rewrite bool_decide_eq_false_2. Qed.

(** What [_load_session] does in each state of the session file. *)
Lemma _load_session_run (self : CVCueClient) (st : State) :
  _load_session self st =
    if denied st (session_file self) then (Raise (OSError "Permission denied"), st)
    else
      match fs_files st !! session_file self with
      | None => (Ok tt, st)
      | Some (Pickled jar) =>
          (Ok tt, mkState (environ st) (fs_files st) (fs_frozen st) (fs_denied st)
                          (jar ∪ cookies st) (server st) (sent st))
      | Some (Garbage _) =>
          if bool_decide (session_file self ∈ fs_frozen st) then (Ok tt, st)
          else (Ok tt, mkState (environ st) (base.delete (session_file self) (fs_files st))
                               (fs_frozen st) (fs_denied st) (cookies st) (server st)
                               (sent st))
      end.
Proof.
  unfold _load_session. unfold bind at 1. unfold path_exists.
  destruct (denied st (session_file self)) eqn:D; [done |].
  destruct (fs_files st !! session_file self) as [[jar | b] |] eqn:E; simpl.
  - unfold try_except, bind, open_rb. by rewrite D, E.
  - unfold try_except, bind, open_rb, unlink. rewrite D, E. simpl. rewrite D, E.
    by destruct (bool_decide (session_file self ∈ fs_frozen st)).
  - done.
Qed.

Lemma py_not_py_or (a e : option string) :
  py_not (py_or a e) = true <-> unset a /\ unset e.
Proof.
  unfold py_not, py_or, unset.
  destruct a as [s |].
  - destruct (String.eqb s "") eqn:Hs.
    + apply String.eqb_eq in Hs. subst s. destruct e as [s' |].
      * rewrite String.eqb_eq. split.
        -- intros ->. auto.
        -- intros [_ [H | H]]; congruence.
      * split; [auto | done].
    + rewrite Hs. apply String.eqb_neq in Hs. split; [done |].
      intros [[H | H] _]; congruence.
  - destruct e as [s' |].
    + rewrite String.eqb_eq. split.
      * intros ->. auto.
      * intros [_ [H | H]]; congruence.
    + split; [auto | done].
Qed.

Lemma py_or_resolved (a e : option string) :
  py_not (py_or a e) = false ->
  exists s, py_or a e = Some s /\ s <> "" /\ resolved a e s.
Proof.
  unfold py_not, py_or, resolved, unset. intros H.
  destruct a as [s |].
  - destruct (String.eqb s "") eqn:Hs.
    + apply String.eqb_eq in Hs. subst s. destruct e as [s' |]; [| done].
      apply String.eqb_neq in H. exists s'. split; [done |]. split; [done |].
      split; [| done]. by intros s [= <-] Hne.
    + rewrite Hs in H. apply String.eqb_neq in Hs.
      exists s. split; [done |]. split; [done |].
      split; [by intros s' [= <-] | intros [Hn | Hn]; congruence].
  - destruct e as [s' |]; [| done].
    apply String.eqb_neq in H. exists s'. split; [done |]. split; [done |].
    split; [done | done].
Qed.

(** [__init__], step by step. *)
Lemma CVCueClient_init_resolved (kid kv cid u sf : option string) (st : State) :
  CVCueClient_init kid kv cid u sf st =
    if py_not (py_or kid (environ st !! "CV_CUE_KEY_ID")) then
      (Raise (ValueError "CV-CUE API key ID must be provided or set in CV_CUE_KEY_ID environment variable"), st)
    else if py_not (py_or kv (environ st !! "CV_CUE_KEY_VALUE")) then
      (Raise (ValueError "CV-CUE API key value must be provided or set in CV_CUE_KEY_VALUE environment variable"), st)
    else if py_not (py_or cid (environ st !! "CV_CUE_CLIENT_ID")) then
      (Raise (ValueError "CV-CUE client ID must be provided or set in CV_CUE_CLIENT_ID environment variable"), st)
    else
      match py_or u (environ st !! "CV_CUE_BASE_URL") with
      | None => (Raise (AttributeError "'NoneType' object has no attribute 'rstrip'"), st)
      | Some url =>
          let self :=
            mkClient (default "" (py_or kid (environ st !! "CV_CUE_KEY_ID")))
                     (default "" (py_or kv (environ st !! "CV_CUE_KEY_VALUE")))
                     (default "" (py_or cid (environ st !! "CV_CUE_CLIENT_ID")))
                     (rstrip "/"%char url) (default SESSION_FILE sf) in
          match _load_session self
                  (mkState (environ st) (fs_files st) (fs_frozen st) (fs_denied st)
                           ∅ (server st) (sent st)) with
          | (Ok _, st') => (Ok self, st')
          | (Raise e, st') => (Raise e, st')
          end
      end.
Proof.
  unfold CVCueClient_init. unfold bind at 1 2 3 4. unfold getenv. simpl.
  destruct (py_not (py_or kid _)); [done |].
  destruct (py_not (py_or kv _)); [done |].
  destruct (py_not (py_or cid _)); [done |].
  destruct (py_or u _) as [url |]; [| done].
  unfold bind, new_session, ret. simpl.
  by destruct (_load_session _ _) as [[[] | e] st'].
Qed.

(** What [__init__] does once the four required fields are there. *)
Lemma CVCueClient_init_run (k v c u : string) (sf : option string) (st : State) :
  k <> "" -> v <> "" -> c <> "" -> u <> "" ->
  CVCueClient_init (Some k) (Some v) (Some c) (Some u) sf st =
    let self := mkClient k v c (rstrip "/"%char u) (default SESSION_FILE sf) in
    match _load_session self
            (mkState (environ st) (fs_files st) (fs_frozen st) (fs_denied st)
                     ∅ (server st) (sent st)) with
    | (Ok _, st') => (Ok self, st')
    | (Raise e, st') => (Raise e, st')
    end.
Proof.
  intros Hk Hv Hc Hu. unfold CVCueClient_init, py_or, py_not.
  apply String.eqb_neq in Hk, Hv, Hc, Hu.
  unfold bind at 1 2 3 4. unfold getenv. simpl.
  repeat (progress (rewrite ?Hk, ?Hv, ?Hc, ?Hu; simpl)).
  unfold bind, new_session, ret. simpl.
  by destruct (_load_session _ _) as [[[] | e] st'].
Qed.

(** C3, as amended: wherever the four fields come from, arguments or
    environment, a session file whose existence can be checked never
    makes the construction raise.  With no session file the client
    starts with no cookie and the files are untouched.  With a session
    file that cannot be loaded the client starts with no cookie, and the
    file is removed unless the removal itself fails, which is swallowed
    as well: the file then stays.  The check [self.session_file.exists()]
    is outside the [try]: when it is refused, the construction raises
    that error and returns no client. *)
Theorem load_session_fails_softly (kid kv cid u sf : option string) (st : State)
    (k v c url : string) :
  py_or kid (environ st !! "CV_CUE_KEY_ID") = Some k -> k <> "" ->
  py_or kv (environ st !! "CV_CUE_KEY_VALUE") = Some v -> v <> "" ->
  py_or cid (environ st !! "CV_CUE_CLIENT_ID") = Some c -> c <> "" ->
  py_or u (environ st !! "CV_CUE_BASE_URL") = Some url ->
  (denied st (default SESSION_FILE sf) = false ->
     (fs_files st !! default SESSION_FILE sf = None ->
        exists st',
          CVCueClient_init kid kv cid u sf st =
            (Ok (mkClient k v c (rstrip "/"%char url) (default SESSION_FILE sf)), st') /\
          cookies st' = ∅ /\ fs_files st' = fs_files st) /\
     (forall bytes,
        fs_files st !! default SESSION_FILE sf = Some (Garbage bytes) ->
        exists st',
          CVCueClient_init kid kv cid u sf st =
            (Ok (mkClient k v c (rstrip "/"%char url) (default SESSION_FILE sf)), st') /\
          cookies st' = ∅ /\
          (default SESSION_FILE sf ∉ fs_frozen st ->
             fs_files st' = base.delete (default SESSION_FILE sf) (fs_files st) /\
             fs_files st' !! default SESSION_FILE sf = None) /\
          (default SESSION_FILE sf ∈ fs_frozen st -> fs_files st' = fs_files st))) /\
  (denied st (default SESSION_FILE sf) = true ->
     exists st',
       CVCueClient_init kid kv cid u sf st = (Raise (OSError "Permission denied"), st') /\
       fs_files st' = fs_files st).
Proof.
  intros Hk Hkne Hv Hvne Hc Hcne Hu.
  pose proof (CVCueClient_init_resolved kid kv cid u sf st) as Hrun.
  rewrite Hk, Hv, Hc, Hu in Hrun. simpl in Hrun.
  apply String.eqb_neq in Hkne, Hvne, Hcne.
  rewrite Hkne, Hvne, Hcne in Hrun.
  rewrite _load_session_run in Hrun. unfold denied in Hrun. simpl in Hrun.
  fold (denied st (default SESSION_FILE sf)) in Hrun.
  split.
  - intros D. rewrite D in Hrun. split.
    + intros E. rewrite E in Hrun. eexists. split; [exact Hrun | done].
    + intros bytes E. rewrite E in Hrun.
      destruct (bool_decide (default SESSION_FILE sf ∈ fs_frozen st)) eqn:Hfrozen.
      * apply bool_decide_eq_true_1 in Hfrozen.
        eexists. split; [exact Hrun |]. simpl. split; [done |].
        split; [intros Hn; contradiction | done].
      * apply bool_decide_eq_false_1 in Hfrozen.
        eexists. split; [exact Hrun |]. simpl. split; [done |].
        split; [| intros Hn; contradiction].
        intros _. split; [done | apply lookup_delete_eq].
  - intros D. rewrite D in Hrun. eexists. split; [exact Hrun | done].
Qed.

(** What [request] does with each answer of the server. *)
Lemma request_run (self : CVCueClient) (method path : string) (kwargs : ReqKwargs)
    (st : State) :
  request self method path kwargs st =
    (match server st (length (sent st)) with
     | Unreachable => Raise ConnectionError
     | Answer r =>
         if (400 <=? status_code r) && (status_code r <? 600)
         then Raise (HTTPError (status_code r))
         else match body_json r with
              | Some v => Ok v
              | None => Raise JSONDecodeError
              end
     end,
     after_send st (mkRequest method (base_url self +:+ path) (request_kwargs kwargs))).
Proof.
  unfold request. run.
  destruct (server st (length (sent st))) as [r |]; [| done].
  destruct ((400 <=? status_code r) && (status_code r <? 600)); [done |].
  by destruct (body_json r).
Qed.

Lemma _make_request_run (self : CVCueClient) (method endpoint : string)
    (data : option PyVal) (params : option (gmap string PyVal)) (st : State) :
  _make_request self method endpoint data params st =
    request self method ("/" +:+ lstrip "/"%char endpoint) (mkReqKwargs params data None) st.
Proof.
  unfold _make_request, try_except.
  destruct (request _ _ _ _ st) as [[a | e] st']; [done |].
  by destruct (is_RequestException e).
Qed.

(** C4, as amended: [login] sends one request, a [POST] to
    [base_url + "/session"] whose JSON body is the credential dictionary
    of fixed shape.  When that request fails, which is the case for an
    unreachable server, for a status from 400 to 599 and for a body that
    is not JSON, the error is what [login] raises and no file is written.
    Any other answer is a success, whatever its status: [login] returns
    the body and the cookie jar is saved to the session file (unless that
    write fails, which is not raised). *)
Theorem login_saves_only_on_success (self : CVCueClient) (st : State) :
  exists out st',
    login self st = (out, st') /\
    sent st' = sent st ++
      [ mkRequest "POST" (base_url self +:+ "/session")
          (mkReqKwargs None
             (Some (PDict [ ("type", PStr "apiKeyCredentials");
                            ("keyId", PStr (key_id self));
                            ("keyValue", PStr (key_value self));
                            ("clientIdentifier", PStr (client_id self));
                            ("timeout", PInt 300) ]))
             None) ] /\
    (forall e, out = Raise e -> fs_files st' = fs_files st) /\
    (server st (length (sent st)) = Unreachable -> out = Raise ConnectionError) /\
    (forall r, server st (length (sent st)) = Answer r ->
       400 <= status_code r < 600 -> out = Raise (HTTPError (status_code r))) /\
    (forall r, server st (length (sent st)) = Answer r ->
       ~ 400 <= status_code r < 600 -> body_json r = None ->
       out = Raise JSONDecodeError) /\
    (forall r v, server st (length (sent st)) = Answer r ->
       ~ 400 <= status_code r < 600 -> body_json r = Some v ->
       out = Ok v /\
       (session_file self ∉ fs_frozen st ->
          fs_files st' =
            <[session_file self := Pickled (set_cookies (resp_cookies r) (cookies st))]>
              (fs_files st)) /\
       (session_file self ∈ fs_frozen st -> fs_files st' = fs_files st)).
Proof.
  unfold login. unfold bind at 1. rewrite _make_request_run, request_run.
  assert (Hrange : forall z, (400 <=? z) && (z <? 600) = true <-> 400 <= z < 600).
  { intros z. rewrite andb_true_iff, Z.leb_le, Z.ltb_lt. done. }
  destruct (server st (length (sent st))) as [r |] eqn:Hsrv.
  - destruct ((400 <=? status_code r) && (status_code r <? 600)) eqn:Hcode.
    + apply Hrange in Hcode.
      eexists _, _. split; [reflexivity |]. simpl.
      repeat split; intros; simplify_eq; done.
    + assert (Hn : ~ 400 <= status_code r < 600).
      { intros H. apply Hrange in H. congruence. }
      destruct (body_json r) as [v |] eqn:Hbody.
      * unfold _save_session. run. rewrite Hsrv.
        destruct (bool_decide (session_file self ∈ fs_frozen st)) eqn:Hfrozen.
        -- apply bool_decide_eq_true_1 in Hfrozen.
           eexists _, _. split; [reflexivity |]. simpl.
           repeat split; intros; simplify_eq; done.
        -- apply bool_decide_eq_false_1 in Hfrozen.
           eexists _, _. split; [reflexivity |]. simpl.
           repeat split; intros; simplify_eq; done.
      * eexists _, _. split; [reflexivity |]. simpl.
        repeat split; intros; simplify_eq; done.
  - eexists _, _. split; [reflexivity |]. simpl.
    repeat split; intros; simplify_eq; done.
Qed.

(** C8 (the defect): with the three credentials given and no base URL,
    neither as an argument nor in [CV_CUE_BASE_URL], [__init__] does not
    raise the [ValueError] of a missing field: it reaches
    [self.base_url.rstrip('/')] and raises [AttributeError].  No client is
    returned and the state is untouched. *)
Theorem init_without_base_url (k v c : string) (sf : option string) (st : State) :
  k <> "" -> v <> "" -> c <> "" ->
  environ st !! "CV_CUE_BASE_URL" = None ->
  CVCueClient_init (Some k) (Some v) (Some c) None sf st =
    (Raise (AttributeError "'NoneType' object has no attribute 'rstrip'"), st).
Proof.
  intros Hk Hv Hc Henv. unfold CVCueClient_init, py_or, py_not.
  apply String.eqb_neq in Hk, Hv, Hc.
  unfold bind at 1 2 3 4. unfold getenv. simpl.
  rewrite Henv.
  repeat (progress (rewrite ?Hk, ?Hv, ?Hc; simpl)).
  reflexivity.
Qed.

(** The sibling checks: a missing key id, key value or client id is the
    [ValueError] the taxonomy calls a configuration error. *)
Lemma init_without_credential (kid kv cid u sf : option string) (st : State) :
  py_not (py_or kid (environ st !! "CV_CUE_KEY_ID")) = true \/
  py_not (py_or kv (environ st !! "CV_CUE_KEY_VALUE")) = true \/
  py_not (py_or cid (environ st !! "CV_CUE_CLIENT_ID")) = true ->
  exists msg, CVCueClient_init kid kv cid u sf st = (Raise (ValueError msg), st).
Proof.
  intros H. unfold CVCueClient_init.
  unfold bind at 1 2 3 4. unfold getenv. simpl.
  destruct (py_not (py_or kid _)); [eauto |].
  destruct (py_not (py_or kv _)); [eauto |].
  destruct (py_not (py_or cid _)); [eauto |].
  by destruct H as [H | [H | H]].
Qed.

End ClientProperties.

(** ** The device listing *)

Section DeviceProperties.
Import filters cv_cue_client managed_devices.

Variable json_dumps : PyVal -> string.

(** What [list_aps] does with each answer of the server. *)
Lemma list_aps_run (self : ManagedDevicesResource) (a : ListApsArgs) (st : State) :
  list_aps json_dumps self a st =
    (match server st (length (sent st)) with
     | Unreachable => Raise ConnectionError
     | Answer r =>
         if (400 <=? status_code r) && (status_code r <? 600)
         then Raise (HTTPError (status_code r))
         else match body_json r with
              | Some v => Ok v
              | None => Raise JSONDecodeError
              end
     end,
     after_send st (list_aps_request json_dumps self a)).
Proof. unfold list_aps, _request. by rewrite request_run. Qed.

(** The branch of [request] that does add the header: no [headers]
    keyword and no JSON body. *)
Lemma request_adds_content_type (self : CVCueClient) (method path : string)
    (kw : ReqKwargs) (st : State) :
  kw_headers kw = None -> kw_json kw = None ->
  exists out st' rq,
    request self method path kw st = (out, st') /\
    sent st' = sent st ++ [rq] /\
    header_of "Content-Type" rq = Some "application/json".
Proof.
  intros Hh Hj. rewrite request_run. eexists _, _, _.
  split; [reflexivity |]. split; [reflexivity |].
  unfold header_of, request_kwargs. simpl. by rewrite Hh, Hj.
Qed.

(** C9 (the defect): the request [list_aps] issues has no body, and the
    headers it goes out with are the ones [list_aps] passed, [Version: 19]
    alone: [request] adds [Content-Type] only when the caller passed no
    [headers] at all. *)
Theorem list_aps_sends_no_content_type (self : ManagedDevicesResource)
    (a : ListApsArgs) (st : State) :
  exists out st' rq,
    list_aps json_dumps self a st = (out, st') /\
    sent st' = sent st ++ [rq] /\
    kw_json (rq_kwargs rq) = None /\
    header_of "Version" rq = Some "19" /\
    header_of "Content-Type" rq = None.
Proof.
  rewrite list_aps_run. eexists _, _, _.
  split; [reflexivity |]. split; [reflexivity |]. done.
Qed.

Lemma to_params_operator (fb : FilterBuilder) :
  fb_filters fb <> [] ->
  to_params json_dumps fb !! "operator" = Some (PStr (fb_operator fb)).
Proof.
  intros H. unfold to_params. destruct (fb_filters fb); [done |].
  simpl. by simplify_map_eq.
Qed.

(** An extra keyword argument named [operator] is what is sent. *)
Lemma list_aps_kwargs_operator (a : ListApsArgs) (v : PyVal) :
  kwargs a !! "operator" = Some v ->
  list_aps_params json_dumps a !! "operator" = Some v.
Proof. intros H. unfold list_aps_params. by apply lookup_union_Some_l. Qed.

(** C10, as amended: in a call of [list_aps] with filters and without an
    extra keyword argument named [operator], the [operator] query
    parameter of the request sent is the builder's operator when
    [filters] is a builder with a filter, and then [filter_operator] does
    not matter to the call at all; it is [filter_operator] when [filters]
    is a list with a filter. *)
Theorem list_aps_operator_param (self : ManagedDevicesResource)
    (a : ListApsArgs) (st : State) :
  kwargs a !! "operator" = None ->
  exists out st' rq,
    list_aps json_dumps self a st = (out, st') /\
    sent st' = sent st ++ [rq] /\
    (forall fb, filters a = Some (FromBuilder fb) -> fb_filters fb <> [] ->
       param_of "operator" rq = Some (PStr (fb_operator fb)) /\
       forall op,
         list_aps json_dumps self (with_filter_operator op a) st = (out, st')) /\
    (forall l, filters a = Some (FromList l) -> l <> [] ->
       param_of "operator" rq = Some (PStr (filter_operator a))).
Proof.
  intros Hkw. rewrite list_aps_run. eexists _, _, _.
  split; [reflexivity |]. split; [reflexivity |]. split.
  - intros fb Hfb Hne. split.
    + unfold param_of, list_aps_request. simpl. unfold list_aps_params.
      rewrite lookup_union_r by done. rewrite Hfb.
      apply lookup_union_Some_l. by apply to_params_operator.
    + intros op. rewrite list_aps_run. do 2 f_equal.
      unfold list_aps_request, list_aps_params, with_filter_operator. simpl.
      by rewrite Hfb.
  - intros l Hl Hne.
    unfold param_of, list_aps_request. simpl. unfold list_aps_params.
    rewrite lookup_union_r by done. rewrite Hl. by simplify_map_eq.
Qed.

(** A second value for [startindex] among the extra keyword arguments of
    [get_all_aps] is a [TypeError] of the call, before any request. *)
Lemma get_all_aps_keyword_clash (fuel : nat) (self : ManagedDevicesResource)
    (pagesize : Z) (filters : option FiltersArg) (filter_operator : string)
    (kwargs : gmap string PyVal) (v : PyVal) (st : State) :
  kwargs !! "startindex" = Some v ->
  exists msg,
    get_all_aps json_dumps (S fuel) self pagesize filters filter_operator kwargs st
      = Some (Raise (TypeError msg), st).
Proof.
  intros H. unfold get_all_aps. simpl.
  unfold get_all_aps_body, bind, call_list_aps. simpl. rewrite H. simpl.
  eauto.
Qed.

End DeviceProperties.

(** ** Pagination *)

Section PaginationProperties.
Import filters cv_cue_client managed_devices.

Variable json_dumps : PyVal -> string.
Variable self : ManagedDevicesResource.
Variable pagesize : Z.
Variable filters : option FiltersArg.
Variable filter_operator : string.
Variable kwargs : gmap string PyVal.

(** The call of [list_aps] inside [get_all_aps] is well formed: [kwargs]
    gives no second value to a keyword the call passes itself. *)
Hypothesis kwargs_ok : Forall (fun k => kwargs !! k = None) passed_names.

Local Abbreviation page_request :=
  (managed_devices.page_request json_dumps self pagesize filters filter_operator kwargs).

Lemma call_list_aps_bound (startindex : Z) (st : State) :
  call_list_aps json_dumps self startindex pagesize filters filter_operator kwargs st =
    list_aps json_dumps self
      (bound_args startindex pagesize filters filter_operator kwargs) st.
Proof.
  unfold call_list_aps.
  assert (H : forall names,
             Forall (fun k => kwargs !! k = None) names ->
             List.find (fun k => bool_decide (is_Some (kwargs !! k))) names = None).
  { induction 1 as [| k ks Hk _ IH]; [done |]. simpl. by rewrite Hk. }
  by rewrite (H _ kwargs_ok).
Qed.

Lemma page_request_startindex (startindex : Z) :
  param_of "startindex" (page_request startindex) = Some (PInt startindex).
Proof.
  unfold param_of, page_request, list_aps_request, list_aps_params. simpl.
  rewrite lookup_union_r by (by simplify_map_eq).
  destruct filters as [[fb | l] |].
  - rewrite lookup_union_r.
    + destruct (is_not_None _); by simplify_map_eq.
    + unfold to_params. destruct (_ =? _)%nat; by simplify_map_eq.
  - destruct (is_not_None _); by simplify_map_eq.
  - destruct (is_not_None _); by simplify_map_eq.
Qed.

Lemma page_request_pagesize (startindex : Z) :
  param_of "pagesize" (page_request startindex) = Some (PInt pagesize).
Proof.
  unfold param_of, page_request, list_aps_request, list_aps_params. simpl.
  rewrite lookup_union_r by (by simplify_map_eq).
  destruct filters as [[fb | l] |].
  - rewrite lookup_union_r.
    + destruct (is_not_None _); by simplify_map_eq.
    + unfold to_params. destruct (_ =? _)%nat; by simplify_map_eq.
  - destruct (is_not_None _); by simplify_map_eq.
  - destruct (is_not_None _); by simplify_map_eq.
Qed.

Lemma seq_from_start {A : Type} (f : Z -> A) (start : Z) (n : nat) :
  map (fun i => f (start + Z.of_nat i * pagesize)) (seq 0 (S n)) =
  f start :: map (fun i => f (start + pagesize + Z.of_nat i * pagesize)) (seq 0 n).
Proof.
  change (seq 0 (S n)) with (0%nat :: seq 1 n).
  rewrite <- seq_shift, map_cons, map_map. f_equal.
  - f_equal. lia.
  - apply map_ext. intros i. f_equal. lia.
Qed.

(** One pass of the loop on a page: the page is requested, and the loop
    ends on an empty page, ends after taking a page shorter than
    [pagesize], and goes on after taking any other page. *)
Lemma get_all_aps_body_page (all_devices items : list PyVal) (startindex : Z) (st : State) :
  page_items (server st (length (sent st))) = Some items ->
  get_all_aps_body json_dumps self pagesize filters filter_operator kwargs
      all_devices startindex st =
    (Ok (match items with
         | [] => Break all_devices
         | _ => if Z.of_nat (length items) <? pagesize
                then Break (all_devices ++ items)
                else Next (all_devices ++ items)
         end),
     after_send st (page_request startindex)).
Proof.
  intros Hpage. unfold get_all_aps_body. unfold bind at 1.
  rewrite call_list_aps_bound, list_aps_run. fold (page_request startindex).
  unfold page_items in Hpage.
  destruct (server st (length (sent st))) as [r |]; [| done].
  destruct ((400 <=? status_code r) && (status_code r <? 600)); [done |].
  destruct (body_json r) as [[| | | | | | d] |]; try done.
  unfold bind, py_get, ret. simpl.
  destruct (default (PList []) (assoc_get "managedDevices" d)); try done.
  injection Hpage as ->.
  destruct items as [| item items]; [done |].
  unfold py_iter, py_len, ret. simpl truthy. cbv iota beta.
  by destruct (Z.of_nat (length (item :: items)) <? pagesize).
Qed.

(** The loop, started anywhere, on full pages followed by a short one. *)
Lemma get_all_aps_loop_pages (full : list (list PyVal)) (last : list PyVal) :
  Forall (fun items => items <> [] /\ pagesize <= Z.of_nat (length items)) full ->
  last = [] \/ Z.of_nat (length last) < pagesize ->
  forall (fuel : nat) (all_devices : list PyVal) (startindex : Z) (st : State),
    (forall i items, (full ++ [last]) !! i = Some items ->
       page_items (server st (length (sent st) + i)%nat) = Some items) ->
    (length full < fuel)%nat ->
    exists st',
      get_all_aps_loop json_dumps fuel self pagesize filters filter_operator kwargs
        all_devices startindex st
      = Some (Ok (all_devices ++ concat (full ++ [last])), st') /\
      server st' = server st /\
      sent st' = sent st ++
        map (fun i => page_request (startindex + Z.of_nat i * pagesize))
            (seq 0 (S (length full))).
Proof.
  intros Hfull Hlast. induction Hfull as [| items full [Hne Hlen] _ IH];
    intros fuel all_devices startindex st Hserved Hfuel.
  - destruct fuel as [| fuel]; [simpl in Hfuel; lia |].
    simpl get_all_aps_loop.
    rewrite (get_all_aps_body_page all_devices last).
    2:{ specialize (Hserved 0%nat last eq_refl). by rewrite Nat.add_0_r in Hserved. }
    assert (Hstep : match last with
                    | [] => Break all_devices
                    | _ => if Z.of_nat (length last) <? pagesize
                           then Break (all_devices ++ last)
                           else Next (all_devices ++ last)
                    end = Break (all_devices ++ concat ([] ++ [last]))).
    { simpl. rewrite app_nil_r.
      destruct Hlast as [-> | Hshort]; [by rewrite app_nil_r |].
      apply Z.ltb_lt in Hshort. rewrite Hshort.
      destruct last; [by rewrite app_nil_r | done]. }
    rewrite Hstep. eexists. split; [reflexivity |]. split; [done |].
    simpl. by rewrite Z.add_0_r.
  - destruct fuel as [| fuel]; [simpl in Hfuel; lia |].
    simpl get_all_aps_loop.
    rewrite (get_all_aps_body_page all_devices items).
    2:{ specialize (Hserved 0%nat items eq_refl). by rewrite Nat.add_0_r in Hserved. }
    assert (Hstep : match items with
                    | [] => Break all_devices
                    | _ => if Z.of_nat (length items) <? pagesize
                           then Break (all_devices ++ items)
                           else Next (all_devices ++ items)
                    end = Next (all_devices ++ items)).
    { destruct items as [| item items]; [done |].
      assert (H : (Z.of_nat (length (item :: items)) <? pagesize) = false)
        by (apply Z.ltb_ge; exact Hlen).
      by rewrite H. }
    rewrite Hstep.
    destruct (IH fuel (all_devices ++ items) (startindex + pagesize)
                (after_send st (page_request startindex))) as (st' & Hrun & Hsrv & Hsent).
    + intros i its Hi. simpl. rewrite length_app. simpl.
      replace (length (sent st) + 1 + i)%nat with (length (sent st) + S i)%nat by lia.
      apply Hserved. exact Hi.
    + simpl in Hfuel. lia.
    + exists st'. split; [| split].
      * rewrite Hrun. simpl. by rewrite app_assoc.
      * by rewrite Hsrv.
      * rewrite Hsent. unfold after_send at 1. simpl sent.
        rewrite <- app_assoc. f_equal.
        change (length (items :: full)) with (S (length full)).
        by rewrite (seq_from_start page_request startindex (S (length full))).
Qed.

(** A server that only ever sends full pages keeps the loop going: no
    number of passes ends it. *)
Lemma get_all_aps_loop_full_pages (fuel : nat) :
  forall (all_devices : list PyVal) (startindex : Z) (st : State),
    (forall i, exists items,
        page_items (server st (length (sent st) + i)%nat) = Some items /\
        items <> [] /\ pagesize <= Z.of_nat (length items)) ->
    get_all_aps_loop json_dumps fuel self pagesize filters filter_operator kwargs
      all_devices startindex st = None.
Proof.
  induction fuel as [| fuel IH]; intros all_devices startindex st Hfull; [done |].
  simpl get_all_aps_loop.
  destruct (Hfull 0%nat) as (items & Hpage & Hne & Hlen).
  rewrite Nat.add_0_r in Hpage.
  rewrite (get_all_aps_body_page all_devices items) by exact Hpage.
  destruct items as [| item items]; [done |].
  assert (H : (Z.of_nat (length (item :: items)) <? pagesize) = false)
    by (apply Z.ltb_ge; exact Hlen).
  rewrite H. apply IH. intros i. simpl. rewrite length_app. simpl.
  replace (length (sent st) + 1 + i)%nat with (length (sent st) + S i)%nat by lia.
  apply Hfull.
Qed.

(** C1: whatever pages the server sends, if the first page that is empty
    or shorter than [pagesize] is the one after [full], then
    [get_all_aps], given the time for that many passes, returns the items
    of all those pages in the order they came, having sent exactly one
    [list_aps] request per page, with [pagesize] as page size and with
    start index 0, [pagesize], 2 * [pagesize], ... in that order, and
    none after the short page. *)
Theorem get_all_aps_paginates (st : State) (full : list (list PyVal)) (last : list PyVal) :
  (forall i items, (full ++ [last]) !! i = Some items ->
     page_items (server st (length (sent st) + i)%nat) = Some items) ->
  Forall (fun items => items <> [] /\ pagesize <= Z.of_nat (length items)) full ->
  last = [] \/ Z.of_nat (length last) < pagesize ->
  forall fuel, (length full < fuel)%nat ->
  exists st' requests,
    get_all_aps json_dumps fuel self pagesize filters filter_operator kwargs st
      = Some (Ok (concat (full ++ [last])), st') /\
    sent st' = sent st ++ requests /\
    length requests = S (length full) /\
    map (param_of "startindex") requests
      = map (fun i => Some (PInt (Z.of_nat i * pagesize))) (seq 0 (S (length full))) /\
    Forall (fun rq =>
              rq_method rq = "GET" /\
              rq_url rq = base_url (client self) +:+ "/manageddevices/aps" /\
              param_of "pagesize" rq = Some (PInt pagesize)) requests.
Proof.
  intros Hserved Hfull Hlast fuel Hfuel.
  destruct (get_all_aps_loop_pages full last Hfull Hlast fuel [] 0 st Hserved Hfuel)
    as (st' & Hrun & _ & Hsent).
  exists st', (map (fun i => page_request (0 + Z.of_nat i * pagesize))
                   (seq 0 (S (length full)))).
  split; [exact Hrun |]. split; [exact Hsent |]. split; [| split].
  - by rewrite length_map, length_seq.
  - rewrite map_map. apply map_ext. intros i.
    rewrite page_request_startindex. by rewrite Z.add_0_l.
  - apply Forall_map, Forall_forall. intros i _. simpl.
    split; [done |]. split; [done |]. apply page_request_pagesize.
Qed.

End PaginationProperties.

(** * The properties at work on concrete calls *)

Section Examples.
Import filters cv_cue_client managed_devices samples.

(** [Filter("name", "contains", "Arista")] prints as the original
    dictionary does. *)
Example Filter_str_Arista :
  Filter_init "name" "contains" (PList [PStr "Arista"])
    = Ok (mkFilter "name" "contains" [PStr "Arista"]) /\
  Filter_str json.dumps (mkFilter "name" "contains" [PStr "Arista"])
    = json.dumps (PDict [ ("property", PStr "name");
                          ("operator", PStr "contains");
                          ("value", PList [PStr "Arista"]) ]).
Proof. split; reflexivity. Qed.

(** [greaterThanOrEquals] is sent as [>=], and [in] is no operator. *)
Lemma Filter_operator_token_witness :
  (exists f,
     Filter_init "boxid" "greaterThanOrEquals" (PInt 100) = Ok f /\
     assoc_get "operator" (to_dict f) = Some (PStr ">=")) /\
  (exists msg, Filter_init "model" "in" (PList [PStr "AP-555"]) = Raise (ValueError msg)).
Proof.
  destruct (Filter_operator_token "boxid" "greaterThanOrEquals" (PInt 100)) as [Hok _].
  destruct (Filter_operator_token "model" "in" (PList [PStr "AP-555"])) as [_ Hbad].
  split.
  - destruct (Hok ">=") as (f & Hf & Hop & _).
    + simpl. tauto.
    + exists f. by split.
  - destruct Hbad as (msg & Hmsg & _).
    + simpl. intros H. repeat destruct H as [H | H]; try discriminate H. exact H.
    + by exists msg.
Defined.

(** [Filter("active", "equals", True).value == [True]] *)
Lemma Filter_value_normalised_witness :
  (exists f, Filter_init "active" "equals" (PBool true) = Ok f /\ value f = [PBool true]) /\
  (exists f, Filter_init "model" "contains" (PList [PStr "AP-555"; PStr "AP-635"]) = Ok f /\
             value f = [PStr "AP-555"; PStr "AP-635"]).
Proof.
  split.
  - destruct (Filter_value_normalised "active" "equals" (PBool true)) as [Hscalar _].
    + simpl. tauto.
    + by apply Hscalar.
  - destruct (Filter_value_normalised "model" "contains"
                (PList [PStr "AP-555"; PStr "AP-635"])) as [_ Hlist].
    + simpl. tauto.
    + by apply Hlist.
Defined.

(** C7, the counterexample: a tuple is a sequence and is not a list, so
    it does not stay as it is: the value of the filter is the one-element
    list that holds the tuple. *)
Lemma Filter_tuple_is_wrapped :
  In "contains" VALID_OPERATORS /\
  Filter_init "model" "contains" a_tuple
    = Ok (mkFilter "model" "contains" [a_tuple]) /\
  [a_tuple] <> [PStr "AP-555"; PStr "AP-635"].
Proof. split; [| split]; [simpl; tauto | reflexivity | discriminate]. Qed.



(** A session file that cannot be loaded is removed, the client starts
    with no cookie. *)
Lemma load_session_fails_softly_witness :
  exists st',
    CVCueClient_init (Some "id") (Some "value") (Some "client")
      (Some "https://test.api.com/api/") None st_corrupt = (Ok a_client, st') /\
    cookies st' = ∅ /\
    fs_files st' !! ".session" = None.
Proof.
  destruct (load_session_fails_softly (Some "id") (Some "value") (Some "client")
              (Some "https://test.api.com/api/") None st_corrupt
              "id" "value" "client" "https://test.api.com/api/")
    as [H _]; try done.
  destruct (H eq_refl) as [_ Hgarbage].
  destruct (Hgarbage "not a pickle" eq_refl) as (st' & Hrun & Hcookies & Hremoved & _).
  exists st'. split; [exact Hrun |]. split; [exact Hcookies |].
  apply Hremoved. simpl. set_solver.
Defined.

(** The session file is in a directory that cannot be searched:
    [CVCueClient()] raises the error of the check. *)
Example init_denied_raises :
  (CVCueClient_init None None None None None st_denied).1
    = Raise (OSError "Permission denied").
Proof. by vm_compute. Qed.

(** C3, the counterexample: the session file cannot be loaded and cannot
    be removed either; the construction succeeds and the file is still
    there. *)
Lemma load_session_file_stays :
  fs_files st_corrupt_frozen !! ".session" = Some (Garbage "not a pickle") /\
  (CVCueClient_init (Some "id") (Some "value") (Some "client")
     (Some "https://test.api.com/api/") None st_corrupt_frozen).1 = Ok a_client /\
  fs_files (CVCueClient_init (Some "id") (Some "value") (Some "client")
              (Some "https://test.api.com/api/") None st_corrupt_frozen).2
    !! ".session" <> None.
Proof. split; [| split]; by vm_compute. Qed.

(** A login the server accepts: the body comes back, the cookie is saved. *)
Lemma login_saves_only_on_success_witness :
  exists st',
    login a_client st_login_200 = (Ok (PDict [("status", PStr "success")]), st') /\
    fs_files st' !! ".session" = Some (Pickled {[ "JSESSIONID" := "0123" ]}).
Proof.
  destruct (login_saves_only_on_success a_client st_login_200)
    as (out & st' & Hrun & _ & _ & _ & _ & _ & Hok).
  destruct (Hok (mkResponse 200 (Some (PDict [("status", PStr "success")]))
                           {[ "JSESSIONID" := Some "0123" ]})
                (PDict [("status", PStr "success")]) eq_refl)
    as (Hout & Hsaved & _); [simpl; lia | reflexivity |].
  exists st'. split; [by rewrite Hrun, Hout |].
  rewrite Hsaved by (simpl; set_solver). simpl.
  rewrite lookup_insert_eq. by vm_compute.
Defined.

(** C4, the counterexample: the answer to the login has status 300, which
    is not a 2xx status, and a JSON body; [login] raises nothing and the
    session file is written. *)
Lemma login_300_is_saved :
  server st_login_300 0%nat
    = Answer (mkResponse 300 (Some (PDict [("status", PStr "choices")]))
                         {[ "JSESSIONID" := Some "0123" ]}) /\
  (login a_client st_login_300).1 = Ok (PDict [("status", PStr "choices")]) /\
  fs_files st_login_300 !! ".session" = None /\
  fs_files (login a_client st_login_300).2 !! ".session"
    = Some (Pickled {[ "JSESSIONID" := "0123" ]}).
Proof. split; [| split; [| split]]; by vm_compute. Qed.

(** The failing input of C8: three credentials, no base URL anywhere. *)
Lemma init_without_base_url_witness :
  CVCueClient_init (Some "id") (Some "value") (Some "client") None None st_empty =
    (Raise (AttributeError "'NoneType' object has no attribute 'rstrip'"), st_empty).
Proof. by apply (init_without_base_url "id" "value" "client" None st_empty). Defined.

(** The failing input of C9: [list_aps()] with its defaults. *)
Example list_aps_defaults_headers :
  map (fun rq => (rq_method rq, kw_json (rq_kwargs rq),
                  header_of "Version" rq, header_of "Content-Type" rq))
      (sent (list_aps json.dumps (mkResource a_client) list_aps_defaults st_empty).2)
    = [ ("GET", None, Some "19", None) ].
Proof. by vm_compute. Qed.

(** A builder that says AND, [filter_operator="OR"]: AND is sent. *)
Lemma list_aps_operator_param_witness :
  exists out st' rq,
    list_aps json.dumps (mkResource a_client) args_builder st_empty = (out, st') /\
    sent st' = [rq] /\
    param_of "operator" rq = Some (PStr "AND").
Proof.
  destruct (list_aps_operator_param json.dumps (mkResource a_client) args_builder st_empty)
    as (out & st' & rq & Hrun & Hsent & Hbuilder & _); [done |].
  exists out, st', rq. split; [exact Hrun |]. split; [exact Hsent |].
  by apply (Hbuilder fb_and).
Defined.

(** C10, the counterexample: the builder says AND and an extra keyword
    argument [operator="OR"] is passed: OR is sent. *)
Lemma list_aps_operator_kwarg_wins :
  managed_devices.filters args_operator_kwarg = Some (FromBuilder fb_and) /\
  fb_filters fb_and <> [] /\
  fb_operator fb_and = "AND" /\
  map (param_of "operator")
      (sent (list_aps json.dumps (mkResource a_client) args_operator_kwarg st_empty).2)
    = [ Some (PStr "OR") ].
Proof. split; [| split; [| split]]; by vm_compute. Qed.

(** 250 devices in pages of 100: three requests, at 0, 100 and 200, and
    the 250 devices in their order. *)
Lemma get_all_aps_paginates_witness :
  exists st' requests,
    get_all_aps json.dumps 3 (mkResource a_client) 100 None "AND" ∅ st_250
      = Some (Ok (devices 0 250), st') /\
    sent st' = requests /\
    length requests = 3%nat /\
    map (param_of "startindex") requests
      = [ Some (PInt 0); Some (PInt 100); Some (PInt 200) ].
Proof.
  destruct (get_all_aps_paginates json.dumps (mkResource a_client) 100 None "AND" ∅
              ltac:(by repeat constructor)
              st_250 [devices 0 100; devices 100 100] (devices 200 50))
    with (fuel := 3%nat)
    as (st' & requests & Hrun & Hsent & Hlen & Hstart & _).
  - intros [| [| [| i]]] items Hi; simpl in Hi; try discriminate Hi;
      injection Hi as <-; reflexivity.
  - repeat constructor; try discriminate; by vm_compute.
  - right. by vm_compute.
  - simpl. lia.
  - exists st', requests. split; [exact Hrun |]. split; [exact Hsent |].
    split; [exact Hlen | exact Hstart].
Defined.

(** A single page of two devices with [pagesize=100], and an empty first
    page: one request each. *)
Example get_all_aps_single_page :
  (exists st',
     get_all_aps json.dumps 1 (mkResource a_client) 100 None "AND" ∅
       (st_always (devices 123 2)) = Some (Ok (devices 123 2), st') /\
     length (sent st') = 1%nat) /\
  (exists st',
     get_all_aps json.dumps 1 (mkResource a_client) 100 None "AND" ∅
       (st_always []) = Some (Ok [], st') /\
     length (sent st') = 1%nat).
Proof. split; eexists; split; reflexivity. Qed.

End Examples.

(** * Further properties of the code *)

(** ** Filters and builders *)

Section MoreFilterProperties.
Import filters.

Variable json_dumps : PyVal -> string.

Lemma add_all_operator (calls : list (string * string * PyVal)) :
  forall fb fb', add_all fb calls = Ok fb' -> fb_operator fb' = fb_operator fb.
Proof.
  intros fb fb' H. by destruct (add_all_appends calls fb fb' H) as (_ & _ & _ & ->).
Qed.

(** X1: a builder is constructed exactly for the operators [AND] and [OR]
    (as written: [and] is refused), and whatever is added to a constructed
    builder afterwards, the [operator] it sends stays that [AND] or [OR]. *)
Theorem builder_operator_invariant (op : string) :
  ((op = "AND" \/ op = "OR") ->
     FilterBuilder_init op = Ok (mkFilterBuilder [] op) /\
     forall calls fb,
       add_all (mkFilterBuilder [] op) calls = Ok fb ->
       calls <> [] ->
       to_params json_dumps fb !! "operator" = Some (PStr op)) /\
  (~ (op = "AND" \/ op = "OR") ->
     FilterBuilder_init op = Raise (ValueError "Operator must be 'AND' or 'OR'")).
Proof.
  split.
  - intros Hop. split.
    + unfold FilterBuilder_init. by destruct Hop as [-> | ->].
    + intros calls fb Hadd Hne.
      destruct (add_all_appends calls _ _ Hadd) as (fs & Hfs & Hfilters & Hoperator).
      simpl in Hfilters, Hoperator. rewrite <- Hoperator.
      apply to_params_operator. rewrite Hfilters.
      destruct Hfs; [done | discriminate].
  - intros Hnot. unfold FilterBuilder_init.
    destruct (in_list op ["AND"; "OR"]) eqn:E; [| done].
    apply in_list_In in E. simpl in E. exfalso. apply Hnot.
    destruct E as [<- | [<- | []]]; auto.
Qed.

(** X2: none of the eight convenience methods can raise: each appends one
    filter for the given property and value, whose operator is sent as
    the token of its name, and leaves the rest of the builder alone. *)
Theorem convenience_methods_never_raise (fb : FilterBuilder) (p : string) (v : PyVal) :
  Forall (fun mt : (FilterBuilder -> string -> PyVal -> result FilterBuilder) * string =>
            exists f,
              mt.1 fb p v = Ok (mkFilterBuilder (fb_filters fb ++ [f]) (fb_operator fb)) /\
              property f = p /\
              value f = match v with PList l => l | _ => [v] end /\
              assoc_get "operator" (to_dict f) = Some (PStr mt.2))
    [ (contains, "contains"); (equals, "="); (not_contains, "notcontains");
      (not_equals, "!="); (greater_than, ">"); (less_than, "<");
      (greater_than_or_equals, ">="); (less_than_or_equals, "<=") ].
Proof.
  repeat constructor; simpl; eexists; (split; [reflexivity |]); done.
Qed.

(** X3: a chain of [add] calls succeeds exactly when every operator in it
    is valid, and then the builder has grown by the number of calls; the
    chain stops at the first invalid operator, with the error that
    constructing that filter raises. *)
Theorem add_all_succeeds_iff_valid (fb : FilterBuilder)
    (calls : list (string * string * PyVal)) :
  (Forall (fun c => In c.1.2 VALID_OPERATORS) calls ->
     exists fb',
       add_all fb calls = Ok fb' /\
       FilterBuilder_len fb' = (FilterBuilder_len fb + length calls)%nat) /\
  (forall good p op v rest,
     calls = good ++ (p, op, v) :: rest ->
     Forall (fun c => In c.1.2 VALID_OPERATORS) good ->
     ~ In op VALID_OPERATORS ->
     exists msg,
       Filter_init p op v = Raise (ValueError msg) /\
       add_all fb calls = Raise (ValueError msg)) /\
  ((exists fb', add_all fb calls = Ok fb') ->
     Forall (fun c => In c.1.2 VALID_OPERATORS) calls).
Proof.
  split; [| split].
  - intros Hvalid. revert fb.
    induction Hvalid as [| [[p op] v] calls Hop _ IH]; intros fb.
    + exists fb. split; [done |]. unfold FilterBuilder_len. simpl. lia.
    + simpl in Hop. simpl. unfold add. rewrite (Filter_init_valid p op v Hop).
      destruct (IH (mkFilterBuilder (fb_filters fb ++ [mkFilter p op
                      (match v with PList l => l | _ => [v] end)]) (fb_operator fb)))
        as (fb' & Hrun & Hlen).
      exists fb'. split; [exact Hrun |].
      rewrite Hlen. unfold FilterBuilder_len. simpl. rewrite length_app. simpl. lia.
  - intros good p op v rest -> Hgood Hbad. revert fb.
    induction Hgood as [| [[p' op'] v'] good Hop _ IH]; intros fb.
    + destruct (Filter_init_invalid p op v Hbad) as [msg Hmsg].
      exists msg. split; [exact Hmsg |]. simpl. unfold add. by rewrite Hmsg.
    + simpl in Hop. simpl. unfold add. rewrite (Filter_init_valid p' op' v' Hop).
      apply IH.
  - intros [fb' Hrun]. revert fb Hrun.
    induction calls as [| [[p op] v] calls IH]; intros fb Hrun; [constructor |].
    simpl in Hrun. unfold add in Hrun.
    destruct (in_list op VALID_OPERATORS) eqn:E.
    + apply in_list_In in E. rewrite (Filter_init_valid p op v E) in Hrun.
      constructor; [exact E | by eapply IH].
    + unfold Filter_init in Hrun. by rewrite E in Hrun.
Qed.

(** X4: serializing loses nothing: two constructed filters with the same
    dictionary are the same filter (the eight tokens are distinct). *)
Theorem to_dict_injective (p op p' op' : string) (v v' : PyVal) (f f' : Filter) :
  Filter_init p op v = Ok f ->
  Filter_init p' op' v' = Ok f' ->
  to_dict f = to_dict f' ->
  f = f'.
Proof.
  intros Hf Hf' Hdict.
  assert (Hop : In op VALID_OPERATORS).
  { apply in_list_In. unfold Filter_init in Hf.
    by destruct (in_list op VALID_OPERATORS). }
  assert (Hop' : In op' VALID_OPERATORS).
  { apply in_list_In. unfold Filter_init in Hf'.
    by destruct (in_list op' VALID_OPERATORS). }
  rewrite (Filter_init_valid p op v Hop) in Hf.
  rewrite (Filter_init_valid p' op' v' Hop') in Hf'.
  injection Hf as <-. injection Hf' as <-.
  unfold to_dict in Hdict. simpl in Hdict.
  injection Hdict as Hp Htok Hv. subst p'. rewrite Hv.
  f_equal.
  simpl in Hop, Hop'.
  repeat (destruct Hop as [<- | Hop]; [| try contradiction]);
    repeat (destruct Hop' as [<- | Hop']; [| try contradiction]);
    first [reflexivity | discriminate Htok].
Qed.

End MoreFilterProperties.

(** ** Strings: [rstrip] and [lstrip] *)

Section StripProperties.
Import cv_cue_client.

Lemma append_nonempty (t : string) (c : ascii) :
  t +:+ String c EmptyString <> EmptyString.
Proof. by destruct t. Qed.

Lemma rstrip_no_trailing (c : ascii) (s : string) :
  forall t, rstrip c s <> t +:+ String c EmptyString.
Proof.
  induction s as [| a s IH]; intros t; simpl.
  - intros H. symmetry in H. by apply append_nonempty in H.
  - destruct (rstrip c s) as [| b r] eqn:E.
    + destruct (Ascii.eqb a c) eqn:Hac.
      * intros H. symmetry in H. by apply append_nonempty in H.
      * apply Ascii.eqb_neq in Hac. destruct t as [| x t]; simpl.
        -- intros [= ->]. contradiction.
        -- intros [= _ H]. symmetry in H. by apply append_nonempty in H.
    + destruct t as [| x t]; simpl; [done |].
      intros [= _ H]. by apply (IH t).
Qed.

Lemma rstrip_decompose (c : ascii) (s : string) :
  exists t, s = rstrip c s +:+ t /\ all_chars c t.
Proof.
  induction s as [| a s (t & Hs & Ht)]; simpl.
  - exists EmptyString. split; [done | constructor].
  - destruct (rstrip c s) as [| b r] eqn:E.
    + destruct (Ascii.eqb a c) eqn:Hac.
      * apply Ascii.eqb_eq in Hac. subst a. exists (String c t).
        split; [by rewrite Hs at 1 | by constructor].
      * exists t. split; [by rewrite Hs at 1 | done].
    + exists t. split; [by rewrite Hs at 1 | done].
Qed.

Lemma lstrip_no_leading (c : ascii) (s : string) :
  forall t, lstrip c s <> String c t.
Proof.
  induction s as [| a s IH]; intros t; simpl; [done |].
  destruct (Ascii.eqb a c) eqn:Hac; [apply IH |].
  apply Ascii.eqb_neq in Hac. by intros [= ->].
Qed.

Lemma lstrip_decompose (c : ascii) (s : string) :
  exists t, s = t +:+ lstrip c s /\ all_chars c t.
Proof.
  induction s as [| a s (t & Hs & Ht)]; simpl.
  - exists EmptyString. split; [done | constructor].
  - destruct (Ascii.eqb a c) eqn:Hac.
    + apply Ascii.eqb_eq in Hac. subst a. exists (String c t).
      split; [| by constructor].
      change (String c s = String c (t +:+ lstrip c s)). by rewrite <- Hs.
    + exists EmptyString. split; [done | constructor].
Qed.

End StripProperties.

(** ** Construction and the session file *)

Section MoreClientProperties.
Import cv_cue_client.

Ltac run_state :=
  unfold bind, try_except, ret, raise, getenv, path_exists, open_rb,
    pickle_load, pickle_dump_to, unlink, get_cookies, new_session,
    cookies_update, session_get, session_request, raise_for_status,
    response_json, any_Exception; simpl.

(** [_load_session] touches nothing but the cookie jar and the files. *)
Lemma _load_session_frame (self : CVCueClient) (st : State) :
  environ (_load_session self st).2 = environ st /\
  fs_frozen (_load_session self st).2 = fs_frozen st /\
  server (_load_session self st).2 = server st /\
  sent (_load_session self st).2 = sent st.
Proof.
  rewrite _load_session_run.
  destruct (denied st (session_file self)); [done |].
  destruct (fs_files st !! session_file self) as [[jar | b] |]; try done.
  by destruct (bool_decide _).
Qed.

(** What [_save_session] does. *)
Lemma _save_session_run (self : CVCueClient) (st : State) :
  _save_session self st =
    (Ok tt,
     if bool_decide (session_file self ∈ fs_frozen st) then st
     else mkState (environ st)
                  (<[session_file self := Pickled (cookies st)]> (fs_files st))
                  (fs_frozen st) (fs_denied st) (cookies st) (server st) (sent st)).
Proof.
  unfold _save_session. run_state.
  by destruct (bool_decide (session_file self ∈ fs_frozen st)).
Qed.

(** X5: every client that [__init__] returns has a non-empty key id, key
    value and client id, each the argument when one was given and the
    environment variable otherwise; its base URL is the one resolved the
    same way with its trailing slashes removed, and none is left; its
    session file is the argument or [.session].  Construction sends
    nothing and leaves the environment alone. *)
Theorem init_client_invariant (kid kv cid u sf : option string) (st st' : State)
    (self : CVCueClient) :
  CVCueClient_init kid kv cid u sf st = (Ok self, st') ->
  (key_id self <> "" /\ key_value self <> "" /\ client_id self <> "") /\
  resolved kid (environ st !! "CV_CUE_KEY_ID") (key_id self) /\
  resolved kv (environ st !! "CV_CUE_KEY_VALUE") (key_value self) /\
  resolved cid (environ st !! "CV_CUE_CLIENT_ID") (client_id self) /\
  (exists url slashes,
     py_or u (environ st !! "CV_CUE_BASE_URL") = Some url /\
     url = base_url self +:+ slashes /\ all_chars "/"%char slashes /\
     forall t, base_url self <> t +:+ "/") /\
  session_file self = default SESSION_FILE sf /\
  (environ st' = environ st /\ fs_frozen st' = fs_frozen st /\
   server st' = server st /\ sent st' = sent st).
Proof.
  rewrite CVCueClient_init_resolved. intros H.
  destruct (py_not (py_or kid _)) eqn:Hk; [done |].
  destruct (py_not (py_or kv _)) eqn:Hv; [done |].
  destruct (py_not (py_or cid _)) eqn:Hc; [done |].
  destruct (py_or u _) as [url |] eqn:Hu; [| done].
  destruct (py_or_resolved _ _ Hk) as (k & Hk' & Hkne & Hkres).
  destruct (py_or_resolved _ _ Hv) as (v & Hv' & Hvne & Hvres).
  destruct (py_or_resolved _ _ Hc) as (c & Hc' & Hcne & Hcres).
  rewrite Hk', Hv', Hc' in H. simpl in H.
  match type of H with
  | context [_load_session ?s ?t] =>
      pose proof (_load_session_frame s t) as Hframe;
      destruct (_load_session s t) as [[[] | e] st2]; [| done]
  end.
  injection H as <- <-. simpl in *.
  split; [done |]. split; [done |]. split; [done |]. split; [done |].
  split.
  - destruct (rstrip_decompose "/"%char url) as (t & Ht & Hall).
    exists url, t. split; [done |]. split; [done |]. split; [done |].
    apply rstrip_no_trailing.
  - split; [done |]. exact Hframe.
Qed.

(** X6: a missing key id, key value or client id (no argument or an empty
    one, and no or an empty environment variable) makes [__init__] raise
    the [ValueError] that names the first missing one in that order, before
    anything else happens: the state, the session file included, is
    untouched. *)
Theorem init_missing_credential_error (kid kv cid u sf : option string) (st : State) :
  (unset kid -> unset (environ st !! "CV_CUE_KEY_ID") ->
     CVCueClient_init kid kv cid u sf st =
       (Raise (ValueError "CV-CUE API key ID must be provided or set in CV_CUE_KEY_ID environment variable"), st)) /\
  (~ (unset kid /\ unset (environ st !! "CV_CUE_KEY_ID")) ->
   unset kv -> unset (environ st !! "CV_CUE_KEY_VALUE") ->
     CVCueClient_init kid kv cid u sf st =
       (Raise (ValueError "CV-CUE API key value must be provided or set in CV_CUE_KEY_VALUE environment variable"), st)) /\
  (~ (unset kid /\ unset (environ st !! "CV_CUE_KEY_ID")) ->
   ~ (unset kv /\ unset (environ st !! "CV_CUE_KEY_VALUE")) ->
   unset cid -> unset (environ st !! "CV_CUE_CLIENT_ID") ->
     CVCueClient_init kid kv cid u sf st =
       (Raise (ValueError "CV-CUE client ID must be provided or set in CV_CUE_CLIENT_ID environment variable"), st)).
Proof.
  rewrite CVCueClient_init_resolved.
  split; [| split].
  - intros Ha He.
    by rewrite (proj2 (py_not_py_or kid _) (conj Ha He)).
  - intros Hk Ha He.
    destruct (py_not (py_or kid _)) eqn:E.
    + apply py_not_py_or in E. contradiction.
    + by rewrite (proj2 (py_not_py_or kv _) (conj Ha He)).
  - intros Hk Hv Ha He.
    destruct (py_not (py_or kid _)) eqn:E.
    + apply py_not_py_or in E. contradiction.
    + destruct (py_not (py_or kv _)) eqn:E'.
      * apply py_not_py_or in E'. contradiction.
      * by rewrite (proj2 (py_not_py_or cid _) (conj Ha He)).
Qed.


(** X8: saving the session and constructing a client on the same session
    file gives that client the cookie jar that was saved. *)
Theorem save_then_load_round_trip (self : CVCueClient) (st : State) (k v c u : string) :
  session_file self ∉ fs_frozen st ->
  k <> "" -> v <> "" -> c <> "" -> u <> "" ->
  exists st1 st2 self2,
    _save_session self st = (Ok tt, st1) /\
    CVCueClient_init (Some k) (Some v) (Some c) (Some u) (Some (session_file self)) st1
      = (Ok self2, st2) /\
    session_file self2 = session_file self /\
    cookies st2 = cookies st.
Proof.
  intros Hfrozen Hk Hv Hc Hu.
  unfold _save_session. run_state.
  rewrite bool_decide_eq_false_2 by done.
  eexists _, _, _. split; [reflexivity |].
  rewrite (CVCueClient_init_run k v c u _ _ Hk Hv Hc Hu). cbv zeta.
  rewrite _load_session_run. rewrite not_frozen_not_denied by done.
  simpl. rewrite lookup_insert_eq.
  split; [reflexivity |]. simpl. split; [done |].
  by rewrite (right_id_L ∅ (∪)).
Qed.

(** What [clear_session] does. *)
Lemma clear_session_run (self : CVCueClient) (st : State) :
  clear_session self st =
    if denied st (session_file self) then (Raise (OSError "Permission denied"), st)
    else
      (Ok tt,
       match fs_files st !! session_file self with
       | Some _ =>
           if bool_decide (session_file self ∈ fs_frozen st) then st
           else mkState (environ st) (base.delete (session_file self) (fs_files st))
                        (fs_frozen st) (fs_denied st) (cookies st) (server st) (sent st)
       | None => st
       end).
Proof.
  unfold clear_session. unfold bind at 1. unfold path_exists.
  destruct (denied st (session_file self)) eqn:D; [done |].
  unfold try_except, unlink, ret, any_Exception. simpl.
  destruct (fs_files st !! session_file self) as [d |] eqn:E; simpl; [| done].
  rewrite D, E. by destruct (bool_decide (session_file self ∈ fs_frozen st)).
Qed.

(** X9: [clear_session] only removes the session file: the cookie jar in
    memory, the other files and the network are untouched.  The check
    [self.session_file.exists()] is outside the [try]: when it is
    refused, [clear_session] raises that error and changes nothing, and
    this is the only error it raises.  Otherwise the file is gone
    afterwards unless it cannot be removed, and clearing again changes
    nothing. *)
Theorem clear_session_removes_file (self : CVCueClient) (st : State) :
  exists out st',
    clear_session self st = (out, st') /\
    cookies st' = cookies st /\ sent st' = sent st /\
    (forall path, path <> session_file self ->
       fs_files st' !! path = fs_files st !! path) /\
    (denied st (session_file self) = true ->
       out = Raise (OSError "Permission denied") /\ st' = st) /\
    (denied st (session_file self) = false -> out = Ok tt) /\
    (session_file self ∉ fs_frozen st -> fs_files st' !! session_file self = None) /\
    (session_file self ∈ fs_frozen st -> st' = st) /\
    clear_session self st' = (out, st').
Proof.
  rewrite clear_session_run.
  destruct (denied st (session_file self)) eqn:D.
  { exists (Raise (OSError "Permission denied")), st.
    rewrite clear_session_run, D. repeat split; try done.
    intros Hn. by rewrite not_frozen_not_denied in D. }
  destruct (fs_files st !! session_file self) as [d |] eqn:E.
  - destruct (bool_decide (session_file self ∈ fs_frozen st)) eqn:Hf.
    + apply bool_decide_eq_true_1 in Hf.
      exists (Ok tt), st. rewrite clear_session_run, D, E.
      rewrite bool_decide_eq_true_2 by done. repeat split; try done.
    + apply bool_decide_eq_false_1 in Hf.
      eexists (Ok tt), _. split; [reflexivity |]. simpl.
      rewrite clear_session_run. unfold denied. simpl.
      rewrite lookup_delete_eq. rewrite (bool_decide_eq_false_2 _ Hf). simpl.
      repeat split; try done.
      intros path Hne. by rewrite lookup_delete_ne.
  - exists (Ok tt), st. rewrite clear_session_run, D, E. repeat split; try done.
Qed.

(** X10: a session obtained by [login] is there for the next client:
    after a successful login whose session file can be written, a client
    constructed on the same session file starts with the cookie jar the
    login left. *)
Theorem login_then_new_client (self : CVCueClient) (st st1 : State) (body : PyVal)
    (k v c u : string) :
  login self st = (Ok body, st1) ->
  session_file self ∉ fs_frozen st ->
  k <> "" -> v <> "" -> c <> "" -> u <> "" ->
  exists self2 st2,
    CVCueClient_init (Some k) (Some v) (Some c) (Some u) (Some (session_file self)) st1
      = (Ok self2, st2) /\
    cookies st2 = cookies st1 /\
    sent st2 = sent st1.
Proof.
  intros Hlogin Hfrozen Hk Hv Hc Hu.
  unfold login in Hlogin. unfold bind at 1 in Hlogin.
  rewrite _make_request_run, request_run in Hlogin.
  destruct (server st (length (sent st))) as [r |] eqn:Hsrv; [| done].
  destruct ((400 <=? status_code r) && (status_code r <? 600)); [done |].
  destruct (body_json r) as [b |]; [| done].
  unfold bind in Hlogin. rewrite _save_session_run in Hlogin.
  simpl in Hlogin. rewrite bool_decide_eq_false_2 in Hlogin by done.
  injection Hlogin as _ <-.
  rewrite (CVCueClient_init_run k v c u _ _ Hk Hv Hc Hu). cbv zeta.
  rewrite _load_session_run. rewrite not_frozen_not_denied by done.
  simpl. rewrite lookup_insert_eq.
  eexists _, _. split; [reflexivity |]. simpl.
  split; [| done]. by rewrite (right_id_L ∅ (∪)).
Qed.


End MoreClientProperties.

(** ** Requests *)

Section RequestProperties.
Import cv_cue_client.

(** X12: what [request] sends: one request per call, with the method, the
    URL [base_url + path], the query parameters and the JSON body it was
    given; headers given by the caller go out as they are, and without
    them [Content-Type: application/json] is the only header exactly when
    the JSON body is missing or false (an empty dictionary included). *)
Theorem request_sends (self : CVCueClient) (method path : string) (kw : ReqKwargs)
    (st : State) :
  exists out st' rq,
    request self method path kw st = (out, st') /\
    sent st' = sent st ++ [rq] /\
    rq_method rq = method /\
    rq_url rq = base_url self +:+ path /\
    kw_params (rq_kwargs rq) = kw_params kw /\
    kw_json (rq_kwargs rq) = kw_json kw /\
    (forall h, kw_headers kw = Some h -> kw_headers (rq_kwargs rq) = Some h) /\
    (kw_headers kw = None ->
       kw_headers (rq_kwargs rq) =
         if truthy (default PNone (kw_json kw)) then None
         else Some {[ "Content-Type" := "application/json" ]}).
Proof.
  rewrite request_run. eexists _, _, _.
  split; [reflexivity |]. split; [reflexivity |]. simpl.
  unfold request_kwargs.
  destruct (kw_headers kw) as [h |] eqn:Hh; simpl.
  - rewrite Hh. repeat split; try done.
  - destruct (truthy (default PNone (kw_json kw))); simpl; rewrite ?Hh;
      repeat split; done.
Qed.

(** X13: what [request] gives back and what it changes: it raises
    [ConnectionError] when the server cannot be reached, [HTTPError] with
    the status for a status from 400 to 599, [JSONDecodeError] for any
    other answer whose body is not JSON, and returns the body otherwise;
    the cookies of an answer enter the jar even when the answer is an
    error; files and environment are never touched. *)
Theorem request_outcome (self : CVCueClient) (method path : string) (kw : ReqKwargs)
    (st : State) :
  exists out st',
    request self method path kw st = (out, st') /\
    fs_files st' = fs_files st /\ fs_frozen st' = fs_frozen st /\
    environ st' = environ st /\ server st' = server st /\
    (server st (length (sent st)) = Unreachable ->
       out = Raise ConnectionError /\ cookies st' = cookies st) /\
    (forall r, server st (length (sent st)) = Answer r ->
       cookies st' = set_cookies (resp_cookies r) (cookies st) /\
       (400 <= status_code r < 600 -> out = Raise (HTTPError (status_code r))) /\
       (~ 400 <= status_code r < 600 -> body_json r = None ->
          out = Raise JSONDecodeError) /\
       (forall v, ~ 400 <= status_code r < 600 -> body_json r = Some v -> out = Ok v)).
Proof.
  rewrite request_run. eexists _, _. split; [reflexivity |]. simpl.
  repeat (split; [done |]).
  assert (Hrange : forall z, (400 <=? z) && (z <? 600) = true <-> 400 <= z < 600).
  { intros z. rewrite andb_true_iff, Z.leb_le, Z.ltb_lt. done. }
  destruct (server st (length (sent st))) as [r |]; split; try done.
  intros r' [= <-]. split; [done |].
  destruct ((400 <=? status_code r) && (status_code r <? 600)) eqn:E.
  - apply Hrange in E. repeat split; intros; try done; contradiction.
  - assert (Hn : ~ 400 <= status_code r < 600).
    { intros H. apply Hrange in H. congruence. }
    repeat split; intros; try contradiction.
    + by rewrite H0.
    + by rewrite H0.
Qed.

(** X14: the URL of a request made through [_make_request] by a client
    that [__init__] returned joins base URL and endpoint with exactly one
    slash: the base URL ends with none, the endpoint is taken without its
    leading slashes, and nothing else of either is changed. *)
Theorem make_request_joins_with_one_slash (kid kv cid u sf : option string)
    (st0 st1 : State) (self : CVCueClient) (method endpoint : string)
    (data : option PyVal) (params : option (gmap string PyVal)) (st : State) :
  CVCueClient_init kid kv cid u sf st0 = (Ok self, st1) ->
  exists out st' rq rest slashes,
    _make_request self method endpoint data params st = (out, st') /\
    sent st' = sent st ++ [rq] /\
    rq_url rq = base_url self +:+ "/" +:+ rest /\
    (forall t, base_url self <> t +:+ "/") /\
    (forall t, rest <> "/" +:+ t) /\
    endpoint = slashes +:+ rest /\ all_chars "/"%char slashes.
Proof.
  intros Hinit.
  rewrite CVCueClient_init_resolved in Hinit.
  destruct (py_not (py_or kid _)); [done |].
  destruct (py_not (py_or kv _)); [done |].
  destruct (py_not (py_or cid _)); [done |].
  destruct (py_or u _) as [url |]; [| done].
  cbv zeta in Hinit.
  destruct (_load_session _ _) as [[[] | e] st2]; [| done].
  injection Hinit as <- _.
  rewrite _make_request_run, request_run.
  destruct (lstrip_decompose "/"%char endpoint) as (slashes & Hend & Hall).
  eexists _, _, _, (lstrip "/"%char endpoint), slashes.
  split; [reflexivity |]. split; [reflexivity |]. simpl.
  split; [done |]. split; [apply rstrip_no_trailing |].
  split; [apply lstrip_no_leading | done].
Qed.

(** X15: the four verbs send their own method, and a call without data
    ([get], [delete], [post] and [put] with [data=None]) goes out with no
    body and with [Content-Type: application/json]; [post] and [put] with
    a true [data] send it as the JSON body and add no header. *)
Theorem verbs_send (self : CVCueClient) (endpoint : string)
    (params : option (gmap string PyVal)) (st : State) :
  Forall (fun call : M PyVal * string =>
            exists out st' rq,
              call.1 st = (out, st') /\ sent st' = sent st ++ [rq] /\
              rq_method rq = call.2 /\
              kw_json (rq_kwargs rq) = None /\
              header_of "Content-Type" rq = Some "application/json")
    [ (get self endpoint params, "GET");
      (post self endpoint None, "POST");
      (put self endpoint None, "PUT");
      (cv_cue_client.delete self endpoint, "DELETE") ] /\
  forall data, truthy data = true ->
    Forall (fun call : M PyVal * string =>
              exists out st' rq,
                call.1 st = (out, st') /\ sent st' = sent st ++ [rq] /\
                rq_method rq = call.2 /\
                kw_json (rq_kwargs rq) = Some data /\
                kw_headers (rq_kwargs rq) = None)
      [ (post self endpoint (Some data), "POST");
        (put self endpoint (Some data), "PUT") ].
Proof.
  split.
  - repeat constructor; simpl;
      unfold get, post, put, cv_cue_client.delete;
      rewrite _make_request_run, request_run;
      eexists _, _, _; (split; [reflexivity |]); (split; [reflexivity |]); done.
  - intros data Hdata.
    repeat constructor; simpl;
      unfold post, put;
      rewrite _make_request_run, request_run;
      eexists _, _, _; (split; [reflexivity |]); (split; [reflexivity |]);
      simpl; unfold request_kwargs; simpl; by rewrite Hdata.
Qed.

End RequestProperties.

(** ** The query of [list_aps] *)

Section MoreDeviceProperties.
Import filters cv_cue_client managed_devices.

Variable json_dumps : PyVal -> string.

Lemma to_params_keys (fb : FilterBuilder) (k : string) :
  k <> "operator" -> k <> "filter" -> to_params json_dumps fb !! k = None.
Proof.
  intros H1 H2. unfold to_params. destruct (_ =? _)%nat; by simplify_map_eq.
Qed.

(** X16: every extra keyword argument of [list_aps] reaches the query as
    it is, whatever else the call says about that key. *)
Theorem list_aps_kwargs_win (self : ManagedDevicesResource) (a : ListApsArgs)
    (st : State) (k : string) (v : PyVal) :
  kwargs a !! k = Some v ->
  exists out st' rq,
    list_aps json_dumps self a st = (out, st') /\
    sent st' = sent st ++ [rq] /\
    param_of k rq = Some v.
Proof.
  intros H. rewrite list_aps_run. eexists _, _, _.
  split; [reflexivity |]. split; [reflexivity |].
  unfold param_of, list_aps_request, list_aps_params. simpl.
  by apply lookup_union_Some_l.
Qed.

(** X17: a builder without filters is the same call as no filters at
    all, whereas an empty list of filters still sends an empty [filter]
    and the [operator]; without [filters] neither key is sent unless an
    extra keyword argument brings it. *)
Theorem list_aps_empty_filters (self : ManagedDevicesResource) (a : ListApsArgs)
    (st : State) :
  (forall fb, managed_devices.filters a = Some (FromBuilder fb) -> fb_filters fb = [] ->
     list_aps json_dumps self a st = list_aps json_dumps self (with_filters None a) st) /\
  (kwargs a !! "filter" = None -> kwargs a !! "operator" = None ->
   exists out st' rq,
     list_aps json_dumps self a st = (out, st') /\
     sent st' = sent st ++ [rq] /\
     (managed_devices.filters a = Some (FromList []) ->
        param_of "filter" rq = Some (PList []) /\
        param_of "operator" rq = Some (PStr (filter_operator a))) /\
     (managed_devices.filters a = None ->
        param_of "filter" rq = None /\ param_of "operator" rq = None)).
Proof.
  split.
  - intros fb Hfb Hempty. rewrite !list_aps_run. do 2 f_equal.
    unfold list_aps_request, list_aps_params, with_filters. simpl.
    rewrite Hfb. unfold to_params. rewrite Hempty. simpl.
    by rewrite (left_id_L ∅ (∪)).
  - intros Hf Ho. rewrite list_aps_run. eexists _, _, _.
    split; [reflexivity |]. split; [reflexivity |].
    unfold param_of, list_aps_request, list_aps_params. simpl.
    split; intros ->; rewrite !lookup_union_r by done;
      destruct (is_not_None (locationid a)); by simplify_map_eq.
Qed.

(** A key that neither the extra keyword arguments nor the filters set is
    looked up among the parameters [list_aps] starts with. *)
Lemma list_aps_params_base (a : ListApsArgs) (k : string) :
  kwargs a !! k = None -> k <> "operator" -> k <> "filter" ->
  list_aps_params json_dumps a !! k =
    (let params : gmap string PyVal :=
       <["populatewiredinterfaces" := populatewiredinterfaces a]>
       (<["populatemeshinfo" := populatemeshinfo a]>
       (<["fetchradios" := fetchradios a]>
       (<["ascending" := ascending a]>
       (<["sortby" := sortby a]>
       (<["totalcountrequired" := totalcountrequired a]>
       (<["pagesize" := pagesize a]>
       (<["startindex" := startindex a]> ∅))))))) in
     if is_not_None (locationid a) then <["locationid" := locationid a]> params
     else params) !! k.
Proof.
  intros Hk H1 H2. unfold list_aps_params. cbv zeta.
  rewrite lookup_union_r by done.
  destruct (managed_devices.filters a) as [[fb | l] |].
  - by rewrite lookup_union_r by (by apply to_params_keys).
  - by rewrite !lookup_insert_ne by done.
  - done.
Qed.

(** X18: with the keyword arguments Python leaves in [**kwargs] (none
    named like a parameter), the query carries the eight pagination, sort
    and flag parameters with the values of the call, [locationid] exactly
    when it is not [None] (so 0 is sent), and the request is a [GET] of
    [/manageddevices/aps] with the header [Version: 19]. *)
Theorem list_aps_base_params (self : ManagedDevicesResource) (a : ListApsArgs)
    (st : State) :
  Forall (fun k => kwargs a !! k = None) list_aps_names ->
  exists out st' rq,
    list_aps json_dumps self a st = (out, st') /\
    sent st' = sent st ++ [rq] /\
    rq_method rq = "GET" /\
    rq_url rq = base_url (client self) +:+ "/manageddevices/aps" /\
    header_of "Version" rq = Some "19" /\
    map (fun k => param_of k rq)
      [ "startindex"; "pagesize"; "totalcountrequired"; "sortby"; "ascending";
        "fetchradios"; "populatemeshinfo"; "populatewiredinterfaces" ]
    = map Some
        [ startindex a; pagesize a; totalcountrequired a; sortby a; ascending a;
          fetchradios a; populatemeshinfo a; populatewiredinterfaces a ] /\
    param_of "locationid" rq =
      (if is_not_None (locationid a) then Some (locationid a) else None).
Proof.
  intros Hkw. rewrite list_aps_run. eexists _, _, _.
  split; [reflexivity |]. split; [reflexivity |].
  split; [done |]. split; [done |]. split; [done |].
  unfold list_aps_names in Hkw.
  repeat match type of Hkw with
         | Forall _ (_ :: _) =>
             let H := fresh "Hk" in
             apply Forall_cons in Hkw as [H Hkw]
         end.
  unfold param_of, list_aps_request. simpl.
  rewrite !list_aps_params_base by done.
  destruct (is_not_None (locationid a)); by simplify_map_eq.
Qed.


End MoreDeviceProperties.

(** ** More on pagination *)

Section MorePaginationProperties.
Import filters cv_cue_client managed_devices.

Variable json_dumps : PyVal -> string.
Variable self : ManagedDevicesResource.
Variable pagesize : Z.
Variable filters : option FiltersArg.
Variable filter_operator : string.
Variable kwargs : gmap string PyVal.

Hypothesis kwargs_ok : Forall (fun k => kwargs !! k = None) passed_names.

Local Abbreviation page_request :=
  (managed_devices.page_request json_dumps self pagesize filters filter_operator kwargs).

(** One pass of the loop on a request that fails. *)
Lemma get_all_aps_body_error (all_devices : list PyVal) (startindex : Z) (st : State)
    (e : Exn) :
  request_error (server st (length (sent st))) = Some e ->
  get_all_aps_body json_dumps self pagesize filters filter_operator kwargs
      all_devices startindex st =
    (Raise e, after_send st (page_request startindex)).
Proof.
  intros Herr. unfold get_all_aps_body. unfold bind at 1.
  rewrite (call_list_aps_bound json_dumps self pagesize filters filter_operator kwargs
             kwargs_ok), list_aps_run.
  unfold request_error in Herr.
  destruct (server st (length (sent st))) as [r |].
  - destruct ((400 <=? status_code r) && (status_code r <? 600)).
    + by injection Herr as <-.
    + destruct (body_json r); [done |]. by injection Herr as <-.
  - by injection Herr as <-.
Qed.

Lemma get_all_aps_loop_error (full : list (list PyVal)) (e : Exn) :
  Forall (fun items => items <> [] /\ pagesize <= Z.of_nat (length items)) full ->
  forall (fuel : nat) (all_devices : list PyVal) (startindex : Z) (st : State),
    (forall i items, full !! i = Some items ->
       page_items (server st (length (sent st) + i)%nat) = Some items) ->
    request_error (server st (length (sent st) + length full)%nat) = Some e ->
    (length full < fuel)%nat ->
    exists st',
      get_all_aps_loop json_dumps fuel self pagesize filters filter_operator kwargs
        all_devices startindex st
      = Some (Raise e, st') /\
      length (sent st') = (length (sent st) + S (length full))%nat.
Proof.
  induction 1 as [| items full [Hne Hlen] _ IH];
    intros fuel all_devices startindex st Hserved Herr Hfuel.
  - destruct fuel as [| fuel]; [simpl in Hfuel; lia |].
    simpl get_all_aps_loop. simpl in Herr. rewrite Nat.add_0_r in Herr.
    rewrite (get_all_aps_body_error all_devices startindex st e Herr).
    eexists. split; [reflexivity |]. simpl. rewrite length_app. simpl. lia.
  - destruct fuel as [| fuel]; [simpl in Hfuel; lia |].
    simpl get_all_aps_loop.
    rewrite (get_all_aps_body_page json_dumps self pagesize filters filter_operator
               kwargs kwargs_ok all_devices items).
    2:{ specialize (Hserved 0%nat items eq_refl). by rewrite Nat.add_0_r in Hserved. }
    destruct items as [| item items]; [done |].
    assert (H : (Z.of_nat (length (item :: items)) <? pagesize) = false)
      by (apply Z.ltb_ge; exact Hlen).
    rewrite H.
    destruct (IH fuel (all_devices ++ item :: items) (startindex + pagesize)
                (after_send st (page_request startindex))) as (st' & Hrun & Hsent).
    + intros i its Hi. simpl. rewrite length_app. simpl.
      replace (length (sent st) + 1 + i)%nat with (length (sent st) + S i)%nat by lia.
      by apply Hserved.
    + simpl. rewrite length_app. simpl.
      replace (length (sent st) + 1 + length full)%nat
        with (length (sent st) + length ((item :: items) :: full))%nat
        by (simpl; lia).
      exact Herr.
    + simpl in Hfuel. lia.
    + exists st'. split; [exact Hrun |]. rewrite Hsent. simpl.
      rewrite length_app. simpl. lia.
Qed.

(** X20: when the request for a page fails after some full pages,
    [get_all_aps] raises that error: the devices of the pages fetched so
    far are not returned, and no request follows the failed one. *)
Theorem get_all_aps_error_propagates (st : State) (full : list (list PyVal)) (e : Exn) :
  (forall i items, full !! i = Some items ->
     page_items (server st (length (sent st) + i)%nat) = Some items) ->
  Forall (fun items => items <> [] /\ pagesize <= Z.of_nat (length items)) full ->
  request_error (server st (length (sent st) + length full)%nat) = Some e ->
  forall fuel, (length full < fuel)%nat ->
  exists st',
    get_all_aps json_dumps fuel self pagesize filters filter_operator kwargs st
      = Some (Raise e, st') /\
    length (sent st') = (length (sent st) + S (length full))%nat.
Proof.
  intros Hserved Hfull Herr fuel Hfuel.
  by apply get_all_aps_loop_error.
Qed.

(** X21: against a server that answers every request with a non-empty
    page of at least [pagesize] items, [get_all_aps] does not return,
    however many passes it is given; with [pagesize] 0 or negative every
    non-empty page is such a page. *)
Theorem get_all_aps_never_returns (st : State) :
  (forall i, exists items,
      page_items (server st (length (sent st) + i)%nat) = Some items /\
      items <> [] /\ pagesize <= Z.of_nat (length items)) ->
  forall fuel,
    get_all_aps json_dumps fuel self pagesize filters filter_operator kwargs st = None.
Proof.
  intros Hfull fuel. unfold get_all_aps.
  by apply get_all_aps_loop_full_pages.
Qed.

(** X22: the requests of [get_all_aps] for two pages differ in the
    [startindex] query parameter only: same method, URL and headers, no
    body, and the same value for every other query parameter, among them
    [pagesize] and [totalcountrequired], which is always [False]. *)
Theorem page_requests_differ_in_startindex (s1 s2 : Z) :
  rq_method (page_request s1) = rq_method (page_request s2) /\
  rq_url (page_request s1) = rq_url (page_request s2) /\
  kw_headers (rq_kwargs (page_request s1)) = kw_headers (rq_kwargs (page_request s2)) /\
  kw_json (rq_kwargs (page_request s1)) = None /\
  (forall k, k <> "startindex" ->
     param_of k (page_request s1) = param_of k (page_request s2)) /\
  param_of "startindex" (page_request s1) = Some (PInt s1) /\
  param_of "totalcountrequired" (page_request s1) = Some (PBool false).
Proof.
  split; [done |]. split; [done |]. split; [done |]. split; [done |].
  split; [| split].
  - intros k Hk.
    assert (Hcongr : forall (m1 m2 : gmap string PyVal) i x,
              m1 !! k = m2 !! k -> <[i:=x]> m1 !! k = <[i:=x]> m2 !! k).
    { intros m1 m2 i x H. rewrite !lookup_insert. by destruct (decide (i = k)). }
    unfold param_of, managed_devices.page_request, list_aps_request, list_aps_params.
    simpl. rewrite !lookup_union. f_equal.
    destruct filters as [[fb | l] |].
    + rewrite !lookup_union. f_equal.
      destruct (is_not_None _); repeat apply Hcongr;
        by rewrite !lookup_insert_ne by done.
    + destruct (is_not_None _); repeat apply Hcongr;
        by rewrite !lookup_insert_ne by done.
    + destruct (is_not_None _); repeat apply Hcongr;
        by rewrite !lookup_insert_ne by done.
  - by apply page_request_startindex.
  - unfold param_of, managed_devices.page_request, list_aps_request. simpl.
    rewrite list_aps_params_base; [| by simplify_map_eq | done | done].
    simpl. destruct (is_not_None _); by simplify_map_eq.
Qed.

(** X23: a first answer whose body is a JSON object with nothing true
    under [managedDevices] (no such key, [null], an empty list, 0, an
    empty string or object) ends [get_all_aps] with the empty list after
    that one request; a body that is no JSON object makes it raise
    [AttributeError]. *)
Theorem get_all_aps_first_body (st : State) (r : Response) (fuel : nat) :
  server st (length (sent st)) = Answer r ->
  ~ 400 <= status_code r < 600 ->
  (forall d, body_json r = Some (PDict d) ->
     truthy (default (PList []) (assoc_get "managedDevices" d)) = false ->
     get_all_aps json_dumps (S fuel) self pagesize filters filter_operator kwargs st
       = Some (Ok [], after_send st (page_request 0))) /\
  (forall v, body_json r = Some v -> (forall d, v <> PDict d) ->
     exists msg,
       get_all_aps json_dumps (S fuel) self pagesize filters filter_operator kwargs st
         = Some (Raise (AttributeError msg), after_send st (page_request 0))).
Proof.
  intros Hsrv Hstatus.
  assert (Hcode : (400 <=? status_code r) && (status_code r <? 600) = false).
  { destruct ((400 <=? status_code r) && (status_code r <? 600)) eqn:E; [| done].
    apply andb_true_iff in E as [H1 H2].
    apply Z.leb_le in H1. apply Z.ltb_lt in H2. lia. }
  assert (Hbody : forall v, body_json r = Some v ->
            call_list_aps json_dumps self 0 pagesize filters filter_operator kwargs st
              = (Ok v, after_send st (page_request 0))).
  { intros v Hv.
    rewrite (call_list_aps_bound json_dumps self pagesize filters filter_operator
               kwargs kwargs_ok), list_aps_run.
    by rewrite Hsrv, Hcode, Hv. }
  unfold get_all_aps. simpl get_all_aps_loop. unfold get_all_aps_body.
  split.
  - intros d Hd Hfalsy. unfold bind at 1. rewrite (Hbody _ Hd).
    unfold bind, py_get, ret. simpl. by rewrite Hfalsy.
  - intros v Hv Hnot. unfold bind at 1. rewrite (Hbody _ Hv).
    unfold bind, py_get.
    destruct v; try (eexists; reflexivity).
    by destruct (Hnot d).
Qed.

End MorePaginationProperties.

(** ** The resource registry *)

Section RegistryProperties.
Import cv_cue_client registry.

Lemma assoc_get_dict_set_eq {A : Type} (key : string) (v : A) (d : list (string * A)) :
  assoc_get key (dict_set key v d) = Some v.
Proof.
  induction d as [| [k x] d IH]; simpl.
  - by rewrite String.eqb_refl.
  - destruct (String.eqb key k) eqn:E; simpl; by rewrite E.
Qed.

Lemma assoc_get_dict_set_ne {A : Type} (key key' : string) (v : A)
    (d : list (string * A)) :
  key <> key' -> assoc_get key' (dict_set key v d) = assoc_get key' d.
Proof.
  intros Hne. induction d as [| [k x] d IH]; simpl.
  - apply String.eqb_neq in Hne. rewrite String.eqb_sym in Hne. by rewrite Hne.
  - destruct (String.eqb key k) eqn:E; simpl.
    + apply String.eqb_eq in E. subst k.
      assert (H : String.eqb key' key = false)
        by (apply String.eqb_neq; congruence).
      by rewrite H.
    + by rewrite IH.
Qed.

Lemma dict_set_keys {A : Type} (key : string) (v : A) (d : list (string * A)) :
  map fst (dict_set key v d) =
    match assoc_get key d with
    | Some _ => map fst d
    | None => map fst d ++ [key]
    end.
Proof.
  induction d as [| [k x] d IH]; simpl; [done |].
  destruct (String.eqb key k) eqn:E; simpl; [done |].
  rewrite IH. by destruct (assoc_get key d).
Qed.

(** X24: the first access to a registered resource makes an object of
    the registered class around this client and caches it; every later
    access returns that very object and makes no other, even when another
    class has been registered under the name in between. *)
Theorem resource_is_cached (self : CVCueClient) (name cls : string) (o : Objects) :
  assoc_get name (_resource_cache o) = None ->
  assoc_get name (_resource_registry o) = Some cls ->
  exists r o1,
    getattr self name o = (Ok r, o1) /\
    resource_class r = cls /\ resource_client r = self /\
    allocated o1 = S (allocated o) /\
    getattr self name o1 = (Ok r, o1) /\
    forall cls',
      getattr self name (register_resource name cls' o1)
        = (Ok r, register_resource name cls' o1).
Proof.
  intros Hcache Hreg. unfold getattr. rewrite Hcache, Hreg.
  eexists _, _. split; [reflexivity |]. simpl.
  rewrite assoc_get_dict_set_eq. repeat split; done.
Qed.

(** X25: a name can be accessed exactly when it has been registered:
    registering makes the first access succeed with the class registered
    last and leaves every other name as it was, a re-registration keeping
    the name's place among the keys; an unregistered name raises
    [AttributeError] with the registered names in the order of their
    first registration, and changes nothing. *)
Theorem register_then_getattr (self : CVCueClient) (name cls : string) (o : Objects) :
  assoc_get name (_resource_cache o) = None ->
  (exists r o1,
     getattr self name (register_resource name cls o) = (Ok r, o1) /\
     resource_class r = cls) /\
  (forall other, other <> name ->
     assoc_get other (_resource_registry (register_resource name cls o))
       = assoc_get other (_resource_registry o)) /\
  (is_Some (assoc_get name (_resource_registry o)) ->
     map fst (_resource_registry (register_resource name cls o))
       = map fst (_resource_registry o)) /\
  (assoc_get name (_resource_registry o) = None ->
     map fst (_resource_registry (register_resource name cls o))
       = map fst (_resource_registry o) ++ [name] /\
     getattr self name o =
       (Raise (AttributeError
                 ("CVCueClient has no resource '" +:+ name +:+ "'. " +:+
                  "Available resources: " +:+
                  join ", " (map fst (_resource_registry o)))), o)).
Proof.
  intros Hcache. split; [| split; [| split]].
  - unfold getattr, register_resource. simpl.
    rewrite Hcache, assoc_get_dict_set_eq. by eexists _, _.
  - intros other Hne. simpl. by apply assoc_get_dict_set_ne.
  - intros [c Hc]. simpl. by rewrite dict_set_keys, Hc.
  - intros Hnone. simpl. rewrite dict_set_keys, Hnone. split; [done |].
    unfold getattr. by rewrite Hcache, Hnone.
Qed.

End RegistryProperties.

(** ** The session commands *)

Section CommandProperties.
Import cv_cue_client main.

Variable str_exn : Exn -> string.
Variable json_dumps_indent : PyVal -> string.

(** What [new_client] does when the environment has the four fields. *)
Lemma new_client_run (st : State) (k v c u : string) :
  environ st !! "CV_CUE_KEY_ID" = Some k -> k <> "" ->
  environ st !! "CV_CUE_KEY_VALUE" = Some v -> v <> "" ->
  environ st !! "CV_CUE_CLIENT_ID" = Some c -> c <> "" ->
  environ st !! "CV_CUE_BASE_URL" = Some u ->
  new_client st =
    match _load_session (mkClient k v c (rstrip "/"%char u) SESSION_FILE)
            (mkState (environ st) (fs_files st) (fs_frozen st) (fs_denied st)
                     ∅ (server st) (sent st)) with
    | (Ok _, st') => (Ok (mkClient k v c (rstrip "/"%char u) SESSION_FILE), st')
    | (Raise e, st') => (Raise e, st')
    end.
Proof.
  intros Hk Hkne Hv Hvne Hc Hcne Hu.
  unfold new_client. rewrite CVCueClient_init_resolved.
  rewrite Hk, Hv, Hc, Hu. simpl.
  apply String.eqb_neq in Hkne, Hvne, Hcne.
  by rewrite Hkne, Hvne, Hcne.
Qed.

(** X26: [session clear] needs the credentials: when the client cannot
    be constructed for want of a key id in the environment, the command
    exits with status 1 and the session file stays as it is.  With the
    four fields in the environment and a session file [.session] whose
    existence can be checked, it returns, always says that the cache was
    cleared, sends nothing, and the file is gone unless it cannot be
    removed.  When that check is refused the client cannot be
    constructed either: the command exits with status 1 after the red
    message with that error, and no file is changed. *)
Theorem clear_needs_credentials (st : State) :
  (unset (environ st !! "CV_CUE_KEY_ID") ->
     exists msg,
       clear str_exn st =
         ([mkEcho ("✗ Error clearing session: " +:+ str_exn (ValueError msg))
                  (Some "red") true], SysExit 1, st)) /\
  (forall k v c u,
     environ st !! "CV_CUE_KEY_ID" = Some k -> k <> "" ->
     environ st !! "CV_CUE_KEY_VALUE" = Some v -> v <> "" ->
     environ st !! "CV_CUE_CLIENT_ID" = Some c -> c <> "" ->
     environ st !! "CV_CUE_BASE_URL" = Some u ->
     (denied st ".session" = false ->
        exists st',
          clear str_exn st =
            ([mkEcho "✓ Session cache cleared" (Some "green") false], Returns, st') /\
          sent st' = sent st /\
          (".session" ∉ fs_frozen st -> fs_files st' !! ".session" = None) /\
          (".session" ∈ fs_frozen st -> fs_files st' = fs_files st)) /\
     (denied st ".session" = true ->
        exists st',
          clear str_exn st =
            ([mkEcho ("✗ Error clearing session: " +:+
                      str_exn (OSError "Permission denied")) (Some "red") true],
             SysExit 1, st') /\
          sent st' = sent st /\ fs_files st' = fs_files st)).
Proof.
  split.
  - intros Hunset. unfold clear, new_client.
    rewrite CVCueClient_init_resolved.
    rewrite (proj2 (py_not_py_or None _) (conj (or_introl eq_refl) Hunset)).
    by eexists.
  - intros k v c u Hk Hkne Hv Hvne Hc Hcne Hu. unfold clear.
    rewrite (new_client_run st k v c u) by done.
    assert (Hframe : forall files jar,
              denied (mkState (environ st) files (fs_frozen st) (fs_denied st)
                              jar (server st) (sent st)) SESSION_FILE
                = denied st SESSION_FILE) by reflexivity.
    rewrite _load_session_run. cbn [session_file]. rewrite Hframe.
    change ".session" with SESSION_FILE.
    split; intros D; rewrite D; [| by eexists].
    assert (Hd : forall files jar,
              denied (mkState (environ st) files (fs_frozen st) (fs_denied st)
                              jar (server st) (sent st)) SESSION_FILE = false)
      by (intros; by rewrite Hframe).
    simpl.
    destruct (fs_files st !! SESSION_FILE) as [[jar | b] |] eqn:E; simpl.
    + rewrite clear_session_run, Hd. simpl. rewrite E.
      destruct (bool_decide (SESSION_FILE ∈ fs_frozen st)) eqn:Hf.
      * apply bool_decide_eq_true_1 in Hf. eexists. split; [reflexivity |].
        simpl. repeat split; try done.
      * apply bool_decide_eq_false_1 in Hf. eexists. split; [reflexivity |].
        simpl. repeat split; try done.
        intros _. apply lookup_delete_eq.
    + destruct (bool_decide (SESSION_FILE ∈ fs_frozen st)) eqn:Hf.
      * apply bool_decide_eq_true_1 in Hf.
        rewrite clear_session_run, Hd. simpl. rewrite E.
        rewrite bool_decide_eq_true_2 by done.
        eexists. split; [reflexivity |]. simpl. repeat split; try done.
      * apply bool_decide_eq_false_1 in Hf.
        rewrite clear_session_run, Hd. simpl. rewrite lookup_delete_eq.
        eexists. split; [reflexivity |]. simpl. repeat split; try done.
        intros _. apply lookup_delete_eq.
    + rewrite clear_session_run, Hd. simpl. rewrite E.
      eexists. split; [reflexivity |]. simpl. repeat split; done.
Qed.

(** Construction sends nothing and, of the files, can only remove one. *)
Lemma CVCueClient_init_frame (kid kv cid u sf : option string) (st : State) :
  sent (CVCueClient_init kid kv cid u sf st).2 = sent st /\
  forall path d,
    fs_files (CVCueClient_init kid kv cid u sf st).2 !! path = Some d ->
    fs_files st !! path = Some d.
Proof.
  rewrite CVCueClient_init_resolved.
  destruct (py_not (py_or kid _)); [done |].
  destruct (py_not (py_or kv _)); [done |].
  destruct (py_not (py_or cid _)); [done |].
  destruct (py_or u _) as [url |]; [| done].
  cbv zeta. rewrite _load_session_run. simpl.
  destruct (denied _ _); [done |].
  destruct (fs_files st !! default SESSION_FILE sf) as [[jar | b] |]; try done.
  destruct (bool_decide _); [done |]. simpl. split; [done |].
  intros path d H. by apply lookup_delete_Some in H as [_ H].
Qed.

(** What [is_session_active] does. *)
Lemma is_session_active_run (self : CVCueClient) (st : State) :
  is_session_active self st =
    if bool_decide (is_Some (cookies st !! "JSESSIONID")) then
      (Ok (match server st (length (sent st)) with
           | Answer r => status_code r =? 200
           | Unreachable => false
           end),
       after_send st (mkRequest "GET" (base_url self +:+ "/session")
                                (mkReqKwargs None None None)))
    else (Ok false, st).
Proof.
  unfold is_session_active, bind, get_cookies, try_except, session_get,
    session_request, ret. simpl.
  destruct (bool_decide (is_Some (cookies st !! "JSESSIONID"))); [| done]. simpl.
  destruct (server st (length (sent st))) as [r |]; [| done].
  by destruct (status_code r =? 200).
Qed.

(** What [login] does. *)
Lemma login_run (self : CVCueClient) (st : State) :
  cv_cue_client.login self st =
    match request_error_of (server st (length (sent st))) with
    | inl e =>
        (Raise e,
         after_send st
           (mkRequest "POST" (base_url self +:+ "/session")
              (mkReqKwargs None
                 (Some (PDict [ ("type", PStr "apiKeyCredentials");
                                ("keyId", PStr (key_id self));
                                ("keyValue", PStr (key_value self));
                                ("clientIdentifier", PStr (client_id self));
                                ("timeout", PInt 300) ]))
                 None)))
    | inr body =>
        (Ok body,
         (_save_session self
            (after_send st
               (mkRequest "POST" (base_url self +:+ "/session")
                  (mkReqKwargs None
                     (Some (PDict [ ("type", PStr "apiKeyCredentials");
                                    ("keyId", PStr (key_id self));
                                    ("keyValue", PStr (key_value self));
                                    ("clientIdentifier", PStr (client_id self));
                                    ("timeout", PInt 300) ]))
                     None)))).2)
    end.
Proof.
  unfold cv_cue_client.login. unfold bind at 1.
  rewrite _make_request_run, request_run. unfold request_error_of.
  destruct (server st (length (sent st))) as [r |]; [| done].
  destruct ((400 <=? status_code r) && (status_code r <? 600)); [done |].
  destruct (body_json r) as [v |]; [| done].
  unfold bind. rewrite !_save_session_run. reflexivity.
Qed.

(** X27: [session status] only looks: it sends at most one request, a
    [GET], never logs in and writes no file (constructing the client can
    remove a session file that cannot be loaded, nothing else); it exits
    with status 1 exactly when the client cannot be constructed. *)
Theorem status_only_probes (st : State) :
  exists out ex st' new,
    status str_exn st = (out, ex, st') /\
    sent st' = sent st ++ new /\
    (length new <= 1)%nat /\
    Forall (fun rq => rq_method rq = "GET") new /\
    (forall path d, fs_files st' !! path = Some d -> fs_files st !! path = Some d) /\
    (ex = SysExit 1 <-> exists e, (new_client st).1 = Raise e) /\
    (ex = Returns <-> exists client, (new_client st).1 = Ok client).
Proof.
  unfold status.
  destruct (CVCueClient_init_frame None None None None None st) as [Hsent Hfiles].
  fold new_client in Hsent, Hfiles.
  destruct (new_client st) as [[client | e] st1] eqn:Hnew; simpl in Hsent, Hfiles.
  - rewrite is_session_active_run.
    destruct (bool_decide (is_Some (cookies st1 !! "JSESSIONID"))).
    + destruct (match server st1 (length (sent st1)) with
                | Answer r => status_code r =? 200
                | Unreachable => false
                end);
        eexists _, _, _, [_]; (split; [reflexivity |]); simpl; rewrite Hsent;
        (split; [done |]); (split; [done |]); (split; [by repeat constructor |]);
        (split; [done |]); split; split; try done; try (by eexists);
        by intros [? ?].
    + eexists _, _, _, []. split; [reflexivity |]. rewrite app_nil_r.
      split; [done |]. split; [simpl; lia |]. split; [constructor |].
      split; [done |]. split; split; try done; try (by eexists).
      by intros [? ?].
  - eexists _, _, _, []. split; [reflexivity |]. rewrite app_nil_r.
    split; [done |]. split; [simpl; lia |]. split; [constructor |].
    split; [done |]. split; split; try done; try (by eexists).
    by intros [? ?].
Qed.

(** X28: [session login] never probes: it sends nothing when the client
    cannot be constructed and otherwise exactly one request, the [POST]
    of the login.  How it ends is how the login ends: when the client is
    constructed and [client.login()] returns, the command returns after
    the green success message on the standard stream (and, when verbose,
    the response); when the construction or the login raises, it exits
    with status 1 and its last line is the red message with that error
    on the error stream. *)
Theorem login_command (verbose : bool) (st : State) :
  exists out ex st' new,
    main.login str_exn json_dumps_indent verbose st = (out, ex, st') /\
    sent st' = sent st ++ new /\
    Forall (fun rq => rq_method rq = "POST") new /\
    (forall e st1, new_client st = (Raise e, st1) ->
       new = [] /\ ex = SysExit 1 /\ st' = st1 /\
       out = [mkEcho ("✗ Login failed: " +:+ str_exn e) (Some "red") true]) /\
    (forall client st1, new_client st = (Ok client, st1) ->
       length new = 1%nat /\
       st' = (cv_cue_client.login client st1).2 /\
       (forall e, (cv_cue_client.login client st1).1 = Raise e ->
          ex = SysExit 1 /\
          last out = Some (mkEcho ("✗ Login failed: " +:+ str_exn e)
                                  (Some "red") true) /\
          ~ In (mkEcho "✓ Login successful" (Some "green") false) out) /\
       (forall response, (cv_cue_client.login client st1).1 = Ok response ->
          ex = Returns /\
          In (mkEcho "✓ Login successful" (Some "green") false) out /\
          Forall (fun e => echo_err e = false) out /\
          (verbose = true ->
             last out = Some (mkEcho (json_dumps_indent response) None false)))).
Proof.
  unfold main.login.
  destruct (CVCueClient_init_frame None None None None None st) as [Hsent _].
  fold new_client in Hsent.
  destruct (new_client st) as [[client | e] st1] eqn:Hnew; simpl in Hsent.
  - assert (Hpost : exists rq,
              sent (cv_cue_client.login client st1).2 = sent st1 ++ [rq] /\
              rq_method rq = "POST").
    { rewrite login_run.
      destruct (request_error_of _) as [e | body]; [by eexists |].
      rewrite _save_session_run. destruct (bool_decide _); by eexists. }
    destruct Hpost as (rq & Hpost & Hmethod).
    destruct (cv_cue_client.login client st1) as [[response | e] st2] eqn:Hrun;
      simpl in Hpost.
    + eexists _, _, _, [rq]. split; [reflexivity |].
      split; [by rewrite Hpost, Hsent |]. split; [by repeat constructor |].
      split; [by intros ? ? [=] |].
      intros ? ? [= <- <-]. rewrite Hrun. simpl.
      split; [done |]. split; [done |].
      split; [by intros ? [=] |].
      intros ? [= <-]. split; [done |].
      destruct verbose; simpl; (split; [auto |]);
        (split; [by repeat constructor |]); done.
    + eexists _, _, _, [rq]. split; [reflexivity |].
      split; [by rewrite Hpost, Hsent |]. split; [by repeat constructor |].
      split; [by intros ? ? [=] |].
      intros ? ? [= <- <-]. rewrite Hrun. simpl.
      split; [done |]. split; [done |].
      split; [| by intros ? [=]].
      intros ? [= <-]. split; [done |].
      destruct verbose; simpl; (split; [done |]);
        intros H; repeat destruct H as [H | H]; done.
  - eexists _, _, _, []. split; [reflexivity |]. rewrite app_nil_r.
    split; [done |]. split; [constructor |].
    split; [| by intros ? ? [=]].
    by intros ? ? [= <- <-].
Qed.

End CommandProperties.

(** ** The command [managed-devices list-aps] *)

Section DeviceCommandProperties.
Import filters cv_cue_client managed_devices main.

Variable str_exn : Exn -> string.
Variable json_dumps : PyVal -> string.
Variable render : string -> bool -> PyVal -> list Echo * option Exn.
Variable traceback_text : Exn -> string.

(** The two lines a bad [--filter] is answered with. *)
Local Abbreviation invalid_filter filter_str :=
  [ mkEcho ("Invalid filter format: " +:+ filter_str) None true;
    mkEcho "Expected format: property:operator:value" None true ].

Lemma split_length (sep : ascii) (s : string) (n : nat) :
  length (split sep s n) = S (Nat.min n (occurrences sep s)).
Proof.
  revert n. induction s as [| c s IH]; intros n; simpl.
  - by rewrite Nat.min_0_r.
  - destruct n as [| n]; [done |].
    destruct (Ascii.eqb c sep); simpl.
    + by rewrite IH.
    + specialize (IH (S n)). destruct (split sep s (S n)); simpl in *; lia.
Qed.

Lemma split_prefix (sep : ascii) (p rest : string) (n : nat) :
  occurrences sep p = O ->
  split sep (p +:+ String sep rest) (S n) = p :: split sep rest n.
Proof.
  induction p as [| c p IH]; simpl.
  - intros _. by rewrite Ascii.eqb_refl.
  - destruct (Ascii.eqb c sep); [done |]. intros H. by rewrite IH.
Qed.

Lemma split_last (sep : ascii) (s : string) : split sep s 0 = [s].
Proof. by destruct s. Qed.

(** [property:operator:value] is taken apart at its first two colons. *)
Lemma split_filter_string (p op v : string) :
  occurrences ":"%char p = O -> occurrences ":"%char op = O ->
  split ":"%char (p +:+ ":" +:+ op +:+ ":" +:+ v) 2 = [p; op; v].
Proof.
  intros Hp Hop.
  change (p +:+ ":" +:+ op +:+ ":" +:+ v)
    with (p +:+ String ":"%char (op +:+ String ":"%char v)).
  rewrite split_prefix by done. rewrite split_prefix by done.
  by rewrite split_last.
Qed.

(** The loop over the filters leaves the state alone. *)
Lemma add_filters_frame (filter_strs : list string) (fb : FilterBuilder) (st : State) :
  (add_filters fb filter_strs st).2 = st.
Proof.
  revert fb. induction filter_strs as [| s rest IH]; intros fb; simpl; [done |].
  destruct (match split ":"%char s 2 with
            | [property_name; operator; v] => add fb property_name operator (PStr v)
            | _ => Raise (ValueError "not enough values to unpack")
            end) as [fb' | []]; try done.
Qed.

(** X29: a [--filter] string [property:operator:value], cut at its first
    two colons (the value may hold more), adds the filter with that
    string value when the operator is one of the eight names, and the
    loop goes on with the next string; a string with fewer than two
    colons, or with another operator, ends the command there: two lines
    on the error stream and exit status 1, whatever follows it. *)
Theorem add_filters_parses (fb : FilterBuilder) (filter_str : string)
    (rest : list string) (st : State) :
  ((occurrences ":"%char filter_str < 2)%nat ->
     add_filters fb (filter_str :: rest) st =
       (invalid_filter filter_str, Exited 1, st)) /\
  (forall p op v,
     filter_str = p +:+ ":" +:+ op +:+ ":" +:+ v ->
     occurrences ":"%char p = O -> occurrences ":"%char op = O ->
     (In op VALID_OPERATORS ->
        add_filters fb (filter_str :: rest) st =
          add_filters (mkFilterBuilder (fb_filters fb ++ [mkFilter p op [PStr v]])
                                       (fb_operator fb)) rest st) /\
     (~ In op VALID_OPERATORS ->
        add_filters fb (filter_str :: rest) st =
          (invalid_filter filter_str, Exited 1, st))).
Proof.
  split.
  - intros Hlt. simpl.
    pose proof (split_length ":"%char filter_str 2) as Hlen.
    destruct (split ":"%char filter_str 2) as [| a [| b [| c l]]];
      cbn [length] in Hlen; try reflexivity; lia.
  - intros p op v -> Hp Hop. simpl. rewrite split_filter_string by done.
    unfold add. split; intros Hin.
    + by rewrite Filter_init_valid.
    + by destruct (Filter_init_invalid p op (PStr v) Hin) as [msg ->].
Qed.





End DeviceCommandProperties.

(** ** Examples of the further properties *)

Section MoreExamples.
Import filters cv_cue_client managed_devices registry samples.

(** [Filter("name", "contains", "Arista")] and
    [Filter("name", "contains", ["Arista"])] have the same dictionary:
    they are the same filter. *)
Lemma to_dict_injective_witness :
  exists f f',
    Filter_init "name" "contains" (PStr "Arista") = Ok f /\
    Filter_init "name" "contains" (PList [PStr "Arista"]) = Ok f' /\
    f = f'.
Proof.
  eexists _, _. split; [reflexivity |]. split; [reflexivity |].
  apply (to_dict_injective "name" "contains" "name" "contains"
           (PStr "Arista") (PList [PStr "Arista"])); reflexivity.
Defined.

(** [CVCueClient()] with the four fields in the environment. *)
Lemma init_client_invariant_witness :
  CVCueClient_init None None None None None st_env = (Ok a_client, st_env) /\
  key_id a_client <> "" /\
  (forall t, base_url a_client <> t +:+ "/") /\
  session_file a_client = ".session".
Proof.
  assert (Hrun : CVCueClient_init None None None None None st_env
                 = (Ok a_client, st_env)) by reflexivity.
  destruct (init_client_invariant None None None None None st_env st_env a_client Hrun)
    as ((Hk & _ & _) & _ & _ & _ & (url & slashes & _ & _ & _ & Hbase) & Hfile & _).
  split; [exact Hrun |]. split; [exact Hk |]. split; [exact Hbase | exact Hfile].
Defined.

(** The jar with the session cookie, saved and loaded by a new client. *)
Lemma save_then_load_round_trip_witness :
  exists st1 st2 self2,
    _save_session a_client (st_answering 200) = (Ok tt, st1) /\
    CVCueClient_init (Some "id") (Some "value") (Some "client")
      (Some "https://test.api.com/api") (Some ".session") st1 = (Ok self2, st2) /\
    cookies st2 = {[ "JSESSIONID" := "0123" ]}.
Proof.
  destruct (save_then_load_round_trip a_client (st_answering 200)
              "id" "value" "client" "https://test.api.com/api")
    as (st1 & st2 & self2 & Hsave & Hinit & _ & Hcookies);
    [simpl; set_solver | done | done | done | done |].
  exists st1, st2, self2. split; [exact Hsave |]. split; [exact Hinit | exact Hcookies].
Defined.

(** After the login that the server accepts, the next client has the
    session cookie. *)
Lemma login_then_new_client_witness :
  exists self2 st2,
    CVCueClient_init (Some "id") (Some "value") (Some "client")
      (Some "https://test.api.com/api") (Some ".session")
      (login a_client st_login_200).2 = (Ok self2, st2) /\
    cookies st2 = {[ "JSESSIONID" := "0123" ]}.
Proof.
  destruct (login_then_new_client a_client st_login_200
              (login a_client st_login_200).2
              (PDict [("status", PStr "success")])
              "id" "value" "client" "https://test.api.com/api")
    as (self2 & st2 & Hinit & Hcookies & _);
    [reflexivity | simpl; set_solver | done | done | done | done |].
  exists self2, st2. split; [exact Hinit |].
  rewrite Hcookies. by vm_compute.
Defined.

(** [client.get("/session")] after [CVCueClient()] with a base URL that
    ends with a slash. *)
Lemma make_request_joins_with_one_slash_witness :
  exists out st' rq rest slashes,
    _make_request a_client "GET" "/session" None None st_env = (out, st') /\
    sent st' = [rq] /\
    rq_url rq = "https://test.api.com/api" +:+ "/" +:+ rest /\
    "/session" = slashes +:+ rest /\
    (forall t, rest <> "/" +:+ t).
Proof.
  destruct (make_request_joins_with_one_slash None None None None None st_env st_env
              a_client "GET" "/session" None None st_env eq_refl)
    as (out & st' & rq & rest & slashes & Hrun & Hsent & Hurl & _ & Hrest & Hend & _).
  exists out, st', rq, rest, slashes.
  split; [exact Hrun |]. split; [exact Hsent |]. split; [exact Hurl |].
  split; [exact Hend | exact Hrest].
Defined.

(** [list_aps(active=True, model=["AP-555"], macaddress=[...])]: the
    three reach the query. *)
Lemma list_aps_kwargs_win_witness :
  exists out st' rq,
    list_aps json.dumps (mkResource a_client) args_kwargs st_empty = (out, st') /\
    sent st' = [rq] /\
    param_of "model" rq = Some (PList [PStr "AP-555"]).
Proof.
  apply (list_aps_kwargs_win json.dumps (mkResource a_client) args_kwargs st_empty
           "model" (PList [PStr "AP-555"])).
  reflexivity.
Defined.

(** The call with every parameter given; [locationid=0] is sent. *)
Lemma list_aps_base_params_witness :
  exists out st' rq,
    list_aps json.dumps (mkResource a_client) args_custom st_empty = (out, st') /\
    sent st' = [rq] /\
    rq_url rq = "https://test.api.com/api/manageddevices/aps" /\
    map (fun k => param_of k rq)
      [ "startindex"; "pagesize"; "totalcountrequired"; "sortby"; "ascending";
        "fetchradios"; "locationid" ]
    = map Some [ PInt 20; PInt 50; PBool true; PStr "name"; PBool false;
                 PBool false; PInt 0 ].
Proof.
  destruct (list_aps_base_params json.dumps (mkResource a_client) args_custom st_empty)
    as (out & st' & rq & Hrun & Hsent & _ & Hurl & _ & Hparams & Hloc);
    [by repeat constructor |].
  exists out, st', rq. split; [exact Hrun |]. split; [exact Hsent |].
  split; [exact Hurl |].
  simpl in Hparams. injection Hparams as H1 H2 H3 H4 H5 H6 _ _.
  simpl. by rewrite H1, H2, H3, H4, H5, H6, Hloc.
Defined.


(** A full page of two devices, then status 500: the error comes out
    after two requests and the two devices are lost. *)
Lemma get_all_aps_error_propagates_witness :
  exists st',
    get_all_aps json.dumps 2 (mkResource a_client) 2 None "AND" ∅ st_fails_second
      = Some (Raise (HTTPError 500), st') /\
    length (sent st') = 2%nat.
Proof.
  apply (get_all_aps_error_propagates json.dumps (mkResource a_client) 2 None "AND" ∅
           ltac:(by repeat constructor) st_fails_second [devices 0 2] (HTTPError 500)).
  - intros [| i] items Hi; simpl in Hi; [| discriminate Hi].
    injection Hi as <-. reflexivity.
  - repeat constructor; [discriminate | by vm_compute].
  - reflexivity.
  - simpl. lia.
Defined.

(** Pages of two devices asked for with [pagesize=2], without end. *)
Lemma get_all_aps_never_returns_witness :
  get_all_aps json.dumps 1000 (mkResource a_client) 2 None "AND" ∅
    (st_always (devices 0 2)) = None.
Proof.
  apply (get_all_aps_never_returns json.dumps (mkResource a_client) 2 None "AND" ∅
           ltac:(by repeat constructor) (st_always (devices 0 2))).
  intros i. exists (devices 0 2). split; [reflexivity |].
  split; [discriminate | by vm_compute].
Defined.

(** An answer [{}], without [managedDevices]: the empty list after one
    request. *)
Lemma get_all_aps_first_body_witness :
  exists st',
    get_all_aps json.dumps 1 (mkResource a_client) 100 None "AND" ∅ (st_answering 200)
      = Some (Ok [], st') /\
    length (sent st') = 1%nat.
Proof.
  destruct (get_all_aps_first_body json.dumps (mkResource a_client) 100 None "AND" ∅
              ltac:(by repeat constructor) (st_answering 200)
              (mkResponse 200 (Some (PDict [])) ∅) 0 eq_refl)
    as [Hempty _]; [simpl; lia |].
  eexists. split; [by apply (Hempty []) | reflexivity].
Defined.

(** [client.managed_devices] twice: the same object. *)
Lemma resource_is_cached_witness :
  exists r o1,
    getattr a_client "managed_devices" objects_imported = (Ok r, o1) /\
    resource_class r = "ManagedDevicesResource" /\
    getattr a_client "managed_devices" o1 = (Ok r, o1).
Proof.
  destruct (resource_is_cached a_client "managed_devices" "ManagedDevicesResource"
              objects_imported eq_refl eq_refl)
    as (r & o1 & Hfirst & Hclass & _ & _ & Hsecond & _).
  exists r, o1. split; [exact Hfirst |]. split; [exact Hclass | exact Hsecond].
Defined.

(** A resource registered after the import, and a name never
    registered. *)
Lemma register_then_getattr_witness :
  (exists r o1,
     getattr a_client "clients"
       (register_resource "clients" "ClientsResource" objects_imported) = (Ok r, o1) /\
     resource_class r = "ClientsResource") /\
  getattr a_client "clients" objects_imported =
    (Raise (AttributeError
              "CVCueClient has no resource 'clients'. Available resources: managed_devices"),
     objects_imported).
Proof.
  destruct (register_then_getattr a_client "clients" "ClientsResource"
              objects_imported eq_refl)
    as (Hok & _ & _ & Hmissing).
  split; [exact Hok |]. by destruct (Hmissing eq_refl) as [_ ->].
Defined.

(** [--filter macaddress:contains:AA:BB --filter name:Arista]: the value
    of the first keeps its colon, the second is refused. *)
Example add_filters_second_refused :
  main.split ":"%char "macaddress:contains:AA:BB" 2 = ["macaddress"; "contains"; "AA:BB"] /\
  main.split ":"%char "name:Arista" 2 = ["name"; "Arista"] /\
  (main.add_filters (mkFilterBuilder [] "AND")
     ["macaddress:contains:AA:BB"; "name:Arista"] st_empty).1
    = ([ main.mkEcho "Invalid filter format: name:Arista" None true;
         main.mkEcho "Expected format: property:operator:value" None true ],
       main.Exited 1).
Proof. split; [| split]; by vm_compute. Qed.

(** The probe is answered 401 with the session cookie expired: the
    session is not active and the cookie has left the jar. *)
Example is_session_active_expired_cookie :
  cookies st_expiring !! "JSESSIONID" = Some "0123" /\
  (is_session_active a_client st_expiring).1 = Ok false /\
  cookies (is_session_active a_client st_expiring).2 !! "JSESSIONID" = None.
Proof. split; [| split]; by vm_compute. Qed.

(** [session clear] where the session file cannot be looked at: the
    client is not constructed, exit status 1. *)
Example clear_denied_exits :
  (main.clear (fun _ => "") st_denied).1.2 = main.SysExit 1 /\
  (main.status (fun _ => "") st_denied).1.2 = main.SysExit 1.
Proof. split; by vm_compute. Qed.

End MoreExamples.
